(** * AIND-Recognizer: model selection and recognition

    A shallow embedding of [my_model_selectors.py] (the four selection
    strategies built on [ModelSelector]) and of [my_recognizer.py]
    ([recognize]), with the properties of the design document that concern
    them.

    Modelling conventions.
    - A Python float is a value of [PyFloat.float]: not-a-number, the two
      infinities, or a finite value.  Finite values are exact rationals:
      rounding and overflow are not modelled, every property below is about
      control flow and about comparisons with the special values.
    - A call that can raise returns a [result]; [except Exception] is a
      match on it.
    - [None] where a model is expected is [None : option Model].
    - A [dict] is an association list in insertion order with distinct keys.
    - hmmlearn, numpy's logarithm and scikit-learn's [KFold] are external:
      they are the fields of the class [External]. *)

From Stdlib Require Import String ZArith QArith List Bool Lia.
Import ListNotations.

Open Scope Z_scope.

(** ** Python floats *)

Module PyFloat.

Inductive float : Type :=
| NaN
| NInf
| Fin (q : Q)
| PInf.

Definition Qltb (a b : Q) : bool := negb (Qle_bool b a).

(** [a < b]; every comparison with [NaN] is false. *)
Definition ltb (a b : float) : bool :=
  match a, b with
  | NaN, _ | _, NaN => false
  | NInf, NInf => false
  | NInf, _ => true
  | Fin _, NInf => false
  | Fin x, Fin y => Qltb x y
  | Fin _, PInf => true
  | PInf, _ => false
  end.

(** [a > b] *)
Definition gtb (a b : float) : bool := ltb b a.

(** [a == b]; not-a-number equals nothing, itself included. *)
Definition eqb (a b : float) : bool :=
  match a, b with
  | NInf, NInf | PInf, PInf => true
  | Fin x, Fin y => Qeq_bool x y
  | _, _ => false
  end.

Definition neg (a : float) : float :=
  match a with
  | NaN => NaN
  | NInf => PInf
  | Fin x => Fin (- x)
  | PInf => NInf
  end.

Definition add (a b : float) : float :=
  match a, b with
  | NaN, _ | _, NaN => NaN
  | NInf, PInf | PInf, NInf => NaN
  | NInf, _ | _, NInf => NInf
  | PInf, _ | _, PInf => PInf
  | Fin x, Fin y => Fin (x + y)
  end.

Definition sub (a b : float) : float := add a (neg b).

(** An infinity times a finite value: the sign of the value decides,
    and zero gives [NaN]. *)
Definition scale_inf (inf : float) (x : Q) : float :=
  match (Qnum x ?= 0)%Z with
  | Eq => NaN
  | Gt => inf
  | Lt => neg inf
  end.

Definition mul (a b : float) : float :=
  match a, b with
  | NaN, _ | _, NaN => NaN
  | Fin x, Fin y => Fin (x * y)
  | Fin x, inf => scale_inf inf x
  | inf, Fin y => scale_inf inf y
  | NInf, NInf | PInf, PInf => PInf
  | NInf, PInf | PInf, NInf => NInf
  end.

Definition div (a b : float) : float :=
  match a, b with
  | NaN, _ | _, NaN => NaN
  | Fin x, Fin y =>
      match (Qnum y ?= 0)%Z with
      | Eq => scale_inf PInf x            (* x/0: nan for 0/0, else +-inf *)
      | _ => Fin (x / y)
      end
  | Fin _, _ => Fin 0
  | inf, Fin y =>
      match (Qnum y ?= 0)%Z with
      | Lt => neg inf
      | _ => inf
      end
  | _, _ => NaN
  end.

Definition of_Z (z : Z) : float := Fin (inject_Z z).

Definition of_nat (n : nat) : float := of_Z (Z.of_nat n).

End PyFloat.

Import PyFloat.

(** [float("-inf")] *)
Definition neg_inf : float := NInf.

(** [np.mean] of a list of floats: the sum over the count.  The mean of the
    empty list is [0/0], that is [NaN]; numpy warns and does not raise. *)
Definition np_mean (l : list float) : float :=
  div (fold_left add l (Fin 0)) (of_nat (length l)).

(** ** Exceptions *)

Inductive exn : Type :=
| AttributeError
| IndexError
| KeyError
| NameError
| ValueError
| LibraryError.

Inductive result (A : Type) : Type :=
| Ok (a : A)
| Raise (e : exn).

Arguments Ok {A} a.
Arguments Raise {A} e.

Definition is_Raise {A : Type} (r : result A) : bool :=
  match r with
  | Ok _ => false
  | Raise _ => true
  end.

(** ** Built-ins: [range], [sum], [min] and [max] with a key, [dict] *)

Definition range (lo hi : Z) : list Z :=
  map (fun i => lo + Z.of_nat i) (seq 0 (Z.to_nat (hi - lo))).

Definition sum (l : list Z) : Z := fold_left Z.add l 0.

Section MinMax.

Context {A : Type}.

(** The loop shared by [min] and [max]: the running best is replaced only
    by an item whose key compares strictly better ([<] for [min], [>] for
    [max]), so the first of several equal items is the one kept. *)
Fixpoint best_from (better : float -> float -> bool) (key : A -> float)
    (best : A) (l : list A) : A :=
  match l with
  | [] => best
  | x :: r =>
      best_from better key (if better (key x) (key best) then x else best) r
  end.

Definition py_min (key : A -> float) (l : list A) : result A :=
  match l with
  | [] => Raise ValueError
  | x :: r => Ok (best_from ltb key x r)
  end.

Definition py_max (key : A -> float) (l : list A) : result A :=
  match l with
  | [] => Raise ValueError
  | x :: r => Ok (best_from gtb key x r)
  end.

End MinMax.

Definition dict (V : Type) : Type := list (string * V).

Fixpoint dict_get {V : Type} (d : dict V) (k : string) : option V :=
  match d with
  | [] => None
  | (k', v) :: r => if String.eqb k' k then Some v else dict_get r k
  end.

(** [d[k] = v]: an existing key keeps its place, a new one goes last. *)
Fixpoint dict_set {V : Type} (d : dict V) (k : string) (v : V) : dict V :=
  match d with
  | [] => [(k, v)]
  | (k', v') :: r =>
      if String.eqb k' k then (k', v) :: r else (k', v') :: dict_set r k v
  end.

(** [d[k]] *)
Definition subscript {V : Type} (d : dict V) (k : string) : result V :=
  match dict_get d k with
  | Some v => Ok v
  | None => Raise KeyError
  end.

Definition keys {V : Type} (d : dict V) : list string := map fst d.

(** ** Data *)

Definition frame : Type := list float.
Definition matrix : Type := list frame.
Definition sequence : Type := list frame.
Definition Xlengths : Type := (matrix * list Z)%type.

(** Modelled from the spec: [asl_utils.combine_sequences], which is not
    among the sources.  It concatenates the frames of the sequences at the
    given indices into one feature matrix and records the frame count of
    each of them; an index outside the list raises. *)
Fixpoint combine_sequences (split_index_list : list nat)
    (sequences : list sequence) : result Xlengths :=
  match split_index_list with
  | [] => Ok ([], [])
  | idx :: r =>
      match nth_error sequences idx with
      | None => Raise IndexError
      | Some s =>
          match combine_sequences r sequences with
          | Ok (X, lengths) => Ok (s ++ X, Z.of_nat (length s) :: lengths)
          | Raise e => Raise e
          end
      end
  end.

(** ** External collaborators *)

Class External : Type := {
  (** a fitted [GaussianHMM] *)
  Model : Type;
  (** [GaussianHMM(n_components, covariance_type="diag", n_iter=1000,
      random_state, verbose=False).fit(X, lengths)] *)
  GaussianHMM_fit : Z -> Z -> matrix -> list Z -> result Model;
  (** [model.score(X, lengths)] *)
  hmm_score : Model -> matrix -> list Z -> result float;
  (** [np.log] at an integer *)
  np_log : Z -> float;
  (** [KFold(n_splits, shuffle=False, random_state).split(s)] for [s] of the
      given length: the (train, test) index lists, or the error of the
      constructor or of the split. *)
  KFold_split : Z -> Z -> nat -> result (list (list nat * list nat))
}.

(** ** [ModelSelector] *)

Section Selectors.

Context {E : External}.

(** The attributes set by [__init__].  Of these, only [X] and [lengths]
    are ever assigned again (by [SelectorCV.select]). *)
Record ModelSelector : Type := {
  words : dict (list sequence);
  hwords : dict Xlengths;
  sequences : list sequence;
  X : matrix;
  lengths : list Z;
  this_word : string;
  n_constant : Z;
  min_n_components : Z;
  max_n_components : Z;
  random_state : Z;
  verbose : bool
}.

Definition ModelSelector_init (all_word_sequences : dict (list sequence))
    (all_word_Xlengths : dict Xlengths) (this_word : string)
    (n_constant min_n_components max_n_components random_state : Z)
    (verbose : bool) : result ModelSelector :=
  match subscript all_word_sequences this_word with
  | Raise e => Raise e
  | Ok seqs =>
      match subscript all_word_Xlengths this_word with
      | Raise e => Raise e
      | Ok (X, lengths) =>
          Ok {| words := all_word_sequences;
                hwords := all_word_Xlengths;
                sequences := seqs;
                X := X;
                lengths := lengths;
                this_word := this_word;
                n_constant := n_constant;
                min_n_components := min_n_components;
                max_n_components := max_n_components;
                random_state := random_state;
                verbose := verbose |}
      end
  end.

Definition set_X (self : ModelSelector) (v : matrix) : ModelSelector :=
  {| words := words self; hwords := hwords self;
     sequences := sequences self; X := v; lengths := lengths self;
     this_word := this_word self; n_constant := n_constant self;
     min_n_components := min_n_components self;
     max_n_components := max_n_components self;
     random_state := random_state self; verbose := verbose self |}.

Definition set_lengths (self : ModelSelector) (v : list Z)
    : ModelSelector :=
  {| words := words self; hwords := hwords self;
     sequences := sequences self; X := X self; lengths := v;
     this_word := this_word self; n_constant := n_constant self;
     min_n_components := min_n_components self;
     max_n_components := max_n_components self;
     random_state := random_state self; verbose := verbose self |}.

(** [base_model]: the bare [except] turns every error of the fit into
    [None].  The messages printed under [verbose] are not modelled. *)
Definition base_model (self : ModelSelector) (num_states : Z)
    : option Model :=
  match GaussianHMM_fit num_states (random_state self) (X self)
          (lengths self) with
  | Ok hmm_model => Some hmm_model
  | Raise _ => None
  end.

(** [hmm_model.score(X, lengths)] where [hmm_model] may be [None]. *)
Definition score (hmm_model : option Model) (X : matrix) (lengths : list Z)
    : result float :=
  match hmm_model with
  | None => Raise AttributeError
  | Some m => hmm_score m X lengths
  end.

(** The candidate range [range(min_n_components, max_n_components + 1)]. *)
Definition candidate_range (self : ModelSelector) : list Z :=
  range (min_n_components self) (max_n_components self + 1).

(** *** [SelectorConstant] *)

Definition SelectorConstant_select (self : ModelSelector) : option Model :=
  let best_num_components := n_constant self in
  base_model self best_num_components.

(** *** [SelectorBIC] *)

Definition free_params (num_states n : Z) : Z :=
  num_states ^ 2 + 2 * num_states * n - 1.

Definition BIC_score (LL : float) (num_states n : Z) : float :=
  add (mul (of_Z (-2)) LL) (mul (of_Z (free_params num_states n)) (np_log n)).

(** One turn of the loop: the pair appended to [models]. *)
Definition SelectorBIC_candidate (self : ModelSelector) (n : Z)
    (num_states : Z) : float * option Model :=
  let hmm_model := base_model self num_states in
  match score hmm_model (X self) (lengths self) with
  | Ok LL => (BIC_score LL num_states n, hmm_model)
  | Raise _ => (neg_inf, hmm_model)
  end.

Definition SelectorBIC_models (self : ModelSelector)
    : list (float * option Model) :=
  let n := sum (lengths self) in
  map (SelectorBIC_candidate self n) (candidate_range self).

Definition SelectorBIC_select (self : ModelSelector)
    : result (option Model) :=
  match py_min fst (SelectorBIC_models self) with
  | Ok (best_score, best_model) => Ok best_model
  | Raise e => Raise e
  end.

(** *** [SelectorDIC] *)

(** The inner loop over [self.words], which collects [adv_scores]. *)
Fixpoint DIC_adv_scores (self : ModelSelector) (hmm_model : option Model)
    (ws : list string) (adv_scores : list float) : result (list float) :=
  match ws with
  | [] => Ok adv_scores
  | word :: r =>
      if negb (String.eqb word (this_word self)) then
        match subscript (hwords self) word with
        | Raise e => Raise e
        | Ok (adv_X, adv_len) =>
            match score hmm_model adv_X adv_len with
            | Raise e => Raise e
            | Ok s => DIC_adv_scores self hmm_model r (adv_scores ++ [s])
            end
        end
      else DIC_adv_scores self hmm_model r adv_scores
  end.

(** The body of the [try], after [hmm_model] is bound: the score appended
    when nothing raises. *)
Definition DIC_score (self : ModelSelector) (hmm_model : option Model)
    : result float :=
  match score hmm_model (X self) (lengths self) with
  | Raise e => Raise e
  | Ok LL =>
      match DIC_adv_scores self hmm_model (keys (words self)) [] with
      | Raise e => Raise e
      | Ok adv_scores => Ok (sub LL (np_mean adv_scores))
      end
  end.

Definition SelectorDIC_candidate (self : ModelSelector) (num_states : Z)
    : float * option Model :=
  let hmm_model := base_model self num_states in
  match DIC_score self hmm_model with
  | Ok s => (s, hmm_model)
  | Raise _ => (neg_inf, hmm_model)
  end.

Definition SelectorDIC_models (self : ModelSelector)
    : list (float * option Model) :=
  map (SelectorDIC_candidate self) (candidate_range self).

Definition SelectorDIC_select (self : ModelSelector)
    : result (option Model) :=
  match py_max fst (SelectorDIC_models self) with
  | Ok (best_score, best_model) => Ok best_model
  | Raise e => Raise e
  end.

End Selectors.

(** ** [SelectorCV]

    [SelectorCV.select] assigns [self.X] and [self.lengths] inside its loops
    and swallows exceptions half-way through them, so it is written in a
    state and exception monad: what was assigned before an exception stays
    assigned. *)

Section CrossValidation.

Context {E : External}.

(** The selector object and the local variables of [select].
    [hmm_model] is [None] until its first assignment. *)
Record CVState : Type := {
  self : ModelSelector;
  hmm_model : option (option Model);
  cv_results : list float;
  models : list (float * option Model)
}.

Definition M (A : Type) : Type := CVState -> result A * CVState.

Definition ret {A : Type} (a : A) : M A := fun st => (Ok a, st).

Definition bind {A B : Type} (m : M A) (k : A -> M B) : M B :=
  fun st =>
    match m st with
    | (Ok a, st') => k a st'
    | (Raise e, st') => (Raise e, st')
    end.

(** [try: m  except Exception as e: h e] *)
Definition try_except {A : Type} (m : M A) (h : exn -> M A) : M A :=
  fun st =>
    match m st with
    | (Ok a, st') => (Ok a, st')
    | (Raise e, st') => h e st'
    end.

Definition lift {A : Type} (r : result A) : M A := fun st => (r, st).

Definition gets {A : Type} (f : CVState -> A) : M A :=
  fun st => (Ok (f st), st).

Definition modify (f : CVState -> CVState) : M unit :=
  fun st => (Ok tt, f st).

End CrossValidation.

Declare Scope cv_scope.
Delimit Scope cv_scope with cv.

Notation "x <- m ;; k" := (bind m (fun x => k))
  (at level 61, m at next level, right associativity) : cv_scope.
Notation "' pat <- m ;; k" := (bind m (fun x => let pat := x in k))
  (at level 61, pat pattern, m at next level, right associativity) : cv_scope.
Notation "m ;; k" := (bind m (fun _ => k))
  (at level 61, right associativity) : cv_scope.

Section CrossValidationSelect.

Context {E : External}.

Open Scope cv_scope.

(** [self.X = v] and [self.lengths = v] *)
Definition assign_X (v : matrix) : M unit :=
  modify (fun st =>
    {| self := set_X (self st) v; hmm_model := hmm_model st;
       cv_results := cv_results st; models := models st |}).

Definition assign_lengths (v : list Z) : M unit :=
  modify (fun st =>
    {| self := set_lengths (self st) v; hmm_model := hmm_model st;
       cv_results := cv_results st; models := models st |}).

(** [hmm_model = self.base_model(num_states)] *)
Definition assign_hmm_model (num_states : Z) : M unit :=
  modify (fun st =>
    {| self := self st;
       hmm_model := Some (base_model (self st) num_states);
       cv_results := cv_results st; models := models st |}).

(** A use of the local [hmm_model]: an error before its first
    assignment. *)
Definition read_hmm_model : M (option Model) :=
  fun st =>
    match hmm_model st with
    | Some m => (Ok m, st)
    | None => (Raise NameError, st)
    end.

(** [cv_results = list()] *)
Definition new_cv_results : M unit :=
  modify (fun st =>
    {| self := self st; hmm_model := hmm_model st;
       cv_results := []; models := models st |}).

(** [cv_results.append(v)] *)
Definition cv_results_append (v : float) : M unit :=
  modify (fun st =>
    {| self := self st; hmm_model := hmm_model st;
       cv_results := cv_results st ++ [v]; models := models st |}).

(** [models.append(v)] *)
Definition models_append (v : float * option Model) : M unit :=
  modify (fun st =>
    {| self := self st; hmm_model := hmm_model st;
       cv_results := cv_results st; models := models st ++ [v] |}).

Fixpoint for_each {A : Type} (l : list A) (body : A -> M unit) : M unit :=
  match l with
  | [] => ret tt
  | x :: r => body x ;; for_each r body
  end.

(** The body of the loop over the folds. *)
Definition cv_fold (num_states : Z) (fold : list nat * list nat)
    : M unit :=
  let (cv_train_idx, cv_test_idx) := fold in
  seqs <- gets (fun st => sequences (self st)) ;;
  '(X_train, train_len) <- lift (combine_sequences cv_train_idx seqs) ;;
  '(X_test, test_len) <- lift (combine_sequences cv_test_idx seqs) ;;
  assign_X X_train ;;
  assign_lengths train_len ;;
  assign_hmm_model num_states ;;
  m <- read_hmm_model ;;
  s <- lift (score m X_test test_len) ;;
  cv_results_append s.

(** The [else] branch: the [try] around the construction of the splitter
    and the whole loop over its folds. *)
Definition cv_folds (num_states : Z) : M unit :=
  try_except
    (seqs <- gets (fun st => sequences (self st)) ;;
     rs <- gets (fun st => random_state (self st)) ;;
     folds <- lift (KFold_split (Z.min 3 (Z.of_nat (length seqs))) rs
                      (length seqs)) ;;
     for_each folds (cv_fold num_states))
    (fun _ => ret tt).

(** The branch of a class with one sequence. *)
Definition cv_single (num_states : Z) : M unit :=
  assign_hmm_model num_states ;;
  try_except
    (m <- read_hmm_model ;;
     X <- gets (fun st => X (self st)) ;;
     lengths <- gets (fun st => lengths (self st)) ;;
     s <- lift (score m X lengths) ;;
     cv_results_append s)
    (fun _ => cv_results_append neg_inf).

(** The body of the loop over the state counts. *)
Definition cv_candidate (num_states : Z) : M unit :=
  new_cv_results ;;
  seqs <- gets (fun st => sequences (self st)) ;;
  (if (length seqs =? 1)%nat then cv_single num_states
   else cv_folds num_states) ;;
  res <- gets cv_results ;;
  if (0 <? length res)%nat then
    m <- read_hmm_model ;;
    models_append (np_mean res, m)
  else ret tt.

Definition SelectorCV_body : M (option Model) :=
  rng <- gets (fun st => candidate_range (self st)) ;;
  for_each rng cv_candidate ;;
  ms <- gets models ;;
  '(best_score, best_model) <- lift (py_max fst ms) ;;
  ret best_model.

Definition cv_init (this : ModelSelector) : CVState :=
  {| self := this; hmm_model := None; cv_results := []; models := [] |}.

(** The value returned (or the exception raised) and the selector object
    as [select] leaves it. *)
Definition SelectorCV_select (this : ModelSelector)
    : result (option Model) * ModelSelector :=
  let (r, st) := SelectorCV_body (cv_init this) in (r, self st).

(** The list [models] at the end of the loop over the state counts. *)
Definition SelectorCV_models (this : ModelSelector)
    : list (float * option Model) :=
  models (snd (for_each (candidate_range this) cv_candidate
                 (cv_init this))).

End CrossValidationSelect.

(** ** [recognize] *)

Section Recognizer.

Context {E : External}.

(** Modelled from the spec: [asl_data.SinglesData], which is not among the
    sources.  The test set is an ordered list of test items, each a
    (feature matrix, lengths) pair; [get_all_Xlengths] gives them all,
    indexed from 0, and [get_item_Xlengths] the one at an index. *)
Definition SinglesData : Type := list Xlengths.

Definition get_all_Xlengths (test_set : SinglesData) : list Xlengths :=
  test_set.

Definition get_item_Xlengths (test_set : SinglesData) (item : nat)
    : result Xlengths :=
  match nth_error test_set item with
  | Some xl => Ok xl
  | None => Raise KeyError
  end.

(** The loop over [models.items()], which fills [LL].  A table entry may
    be [None]: that is what a selector returns when the fit failed. *)
Fixpoint score_words (models : dict (option Model)) (features : matrix)
    (length : list Z) (LL : dict float) : dict float :=
  match models with
  | [] => LL
  | (word, model) :: r =>
      match score model features length with
      | Ok s => score_words r features length (dict_set LL word s)
      | Raise _ => score_words r features length (dict_set LL word neg_inf)
      end
  end.

(** [max(LL, key=LL.get)]: the keys of [LL] are compared by the value
    stored under them, in insertion order. *)
Definition best_guess (LL : dict float) : result string :=
  match py_max snd LL with
  | Ok (word, _) => Ok word
  | Raise e => Raise e
  end.

Fixpoint recognize_loop (models : dict (option Model))
    (test_set : SinglesData) (idxs : list nat)
    (probabilities : list (dict float)) (guesses : list string)
    : result (list (dict float) * list string) :=
  match idxs with
  | [] => Ok (probabilities, guesses)
  | i :: r =>
      match get_item_Xlengths test_set i with
      | Raise e => Raise e
      | Ok (features, length) =>
          let LL := score_words models features length [] in
          match best_guess LL with
          | Raise e => Raise e
          | Ok guess =>
              recognize_loop models test_set r (probabilities ++ [LL])
                (guesses ++ [guess])
          end
      end
  end.

Definition recognize (models : dict (option Model))
    (test_set : SinglesData)
    : result (list (dict float) * list string) :=
  let test_size := List.length (get_all_Xlengths test_set) in
  recognize_loop models test_set (seq 0 test_size) [] [].

End Recognizer.

(** ** Vocabulary of the statements *)

Section Vocabulary.

Context {E : External}.

(** Two selector objects that differ at most in [X] and [lengths]. *)
Definition same_config (a b : ModelSelector) : Prop :=
  words a = words b /\ hwords a = hwords b /\ sequences a = sequences b /\
  this_word a = this_word b /\ n_constant a = n_constant b /\
  min_n_components a = min_n_components b /\
  max_n_components a = max_n_components b /\
  random_state a = random_state b /\ verbose a = verbose b.

(** The selector with another candidate range. *)
Definition with_range (self : ModelSelector) (lo hi : Z) : ModelSelector :=
  {| words := words self; hwords := hwords self;
     sequences := sequences self; X := X self; lengths := lengths self;
     this_word := this_word self; n_constant := n_constant self;
     min_n_components := lo; max_n_components := hi;
     random_state := random_state self; verbose := verbose self |}.

(** What one fold gives for a state count when it is evaluated: the score
    on the test part of the model fitted on the train part, or the error of
    the first step that raises. *)
Definition fold_score (self : ModelSelector) (num_states : Z)
    (fold : list nat * list nat) : result float :=
  match combine_sequences (fst fold) (sequences self) with
  | Raise e => Raise e
  | Ok (X_train, train_len) =>
      match combine_sequences (snd fold) (sequences self) with
      | Raise e => Raise e
      | Ok (X_test, test_len) =>
          match GaussianHMM_fit num_states (random_state self) X_train
                  train_len with
          | Raise _ => Raise AttributeError
          | Ok m => hmm_score m X_test test_len
          end
      end
  end.

(** The folds of a class, as [SelectorCV.select] asks for them. *)
Definition folds_of (self : ModelSelector)
    : result (list (list nat * list nat)) :=
  KFold_split (Z.min 3 (Z.of_nat (length (sequences self))))
    (random_state self) (length (sequences self)).

(** The data stored in the selector after some folds: as before, or the
    train part of one of the folds. *)
Definition stored_from (this : ModelSelector)
    (folds : list (list nat * list nat)) (now : ModelSelector) : Prop :=
  (X now = X this /\ lengths now = lengths this) \/
  exists fold, In fold folds /\
    combine_sequences (fst fold) (sequences this)
      = Ok (X now, lengths now).

(** The data stored in the selector by [SelectorCV.select]: as before, or
    the train part of one of the folds of the class. *)
Definition stored_by_select (this now : ModelSelector) : Prop :=
  (X now = X this /\ lengths now = lengths this) \/
  exists folds fold, folds_of this = Ok folds /\ In fold folds /\
    combine_sequences (fst fold) (sequences this)
      = Ok (X now, lengths now).

(** The score list of a class with one sequence: the score of the model on
    the data of the selector, or minus infinity when scoring raises. *)
Definition single_result (self : ModelSelector) (num_states : Z) : float :=
  match score (base_model self num_states) (X self) (lengths self) with
  | Ok s => s
  | Raise _ => neg_inf
  end.

(** The entry of a class in the mapping of a test item: the score of its
    model on the item, or minus infinity when scoring raises. *)
Definition word_score (model : option Model) (features : matrix)
    (length : list Z) : float :=
  match score model features length with
  | Ok s => s
  | Raise _ => neg_inf
  end.

(** The state of [SelectorCV.select] after the evaluation of one state
    count, started from the given state. *)
Definition after_candidate (num_states : Z) (st : CVState) : CVState :=
  snd (cv_candidate num_states st).

(** The fit fails for a state count on the data of the selector. *)
Definition fit_fails (self : ModelSelector) (num_states : Z) : Prop :=
  base_model self num_states = None.

(** Scoring the model of a state count on the data of the selector
    raises (also when there is no model). *)
Definition score_fails (self : ModelSelector) (num_states : Z) : Prop :=
  is_Raise (score (base_model self num_states) (X self) (lengths self))
    = true.

(** What [SelectorDIC] gets for another class: the score of the model on
    the data stored for that class, or the error of the lookup or of the
    scoring. *)
Definition adv_score (self : ModelSelector) (hmm_model : option Model)
    (word : string) : result float :=
  match subscript (hwords self) word with
  | Raise e => Raise e
  | Ok (adv_X, adv_len) => score hmm_model adv_X adv_len
  end.

(** The other classes of the data set, in the order of [self.words]. *)
Definition other_words (self : ModelSelector) : list string :=
  filter (fun word => negb (String.eqb word (this_word self)))
    (keys (words self)).

(** For a class that is not evaluated on a single sequence: the splitter
    gives a first fold and that fold scores for the state count.  The loop
    over the folds ends at the first fold that raises, so this is when the
    state count has a successful fold at all. *)
Definition has_scoring_fold (self : ModelSelector) (num_states : Z) : bool :=
  match folds_of self with
  | Ok (fold :: _) => negb (is_Raise (fold_score self num_states fold))
  | _ => false
  end.

(** The state counts [SelectorCV] records: all of them for a class with
    one sequence, otherwise those with a successful fold. *)
Definition cv_recorded (self : ModelSelector) (num_states : Z) : bool :=
  (length (sequences self) =? 1)%nat || has_scoring_fold self num_states.

End Vocabulary.

(** ** A small instance of the external collaborators

    Used to run the selectors and the recognizer on concrete data.  A model
    is its number of states.  The fit fails when there are fewer frames than
    states; scoring fails on data with an empty frame, and otherwise gives
    minus the number of states times the number of frames.  The splitter is
    the sequential one of [KFold] without shuffling: the first [n mod k]
    folds have [n / k + 1] test indices and the others [n / k]. *)

Module Toy.

Definition has_empty_frame (X : matrix) : bool :=
  existsb (fun f : frame => match f with [] => true | _ => false end) X.

Definition fit (n_components random_state : Z) (X : matrix)
    (lengths : list Z) : result Z :=
  if n_components <=? Z.of_nat (length X) then Ok n_components
  else Raise LibraryError.

Definition score (m : Z) (X : matrix) (lengths : list Z) : result float :=
  if has_empty_frame X then Raise LibraryError
  else Ok (of_Z (- (m * Z.of_nat (length X)))).

Definition log (n : Z) : float := of_Z (Z.log2 n).

Fixpoint folds_from (sizes : list nat) (start n : nat)
    : list (list nat * list nat) :=
  match sizes with
  | [] => []
  | sz :: r =>
      (seq 0 start ++ seq (start + sz) (n - (start + sz)), seq start sz)
        :: folds_from r (start + sz) n
  end.

Definition fold_sizes (k n : nat) : list nat :=
  map (fun i => (n / k + (if i <? n mod k then 1 else 0))%nat) (seq 0 k).

Definition split (n_splits random_state : Z) (n_samples : nat)
    : result (list (list nat * list nat)) :=
  if (n_splits <? 2) || (Z.of_nat n_samples <? n_splits) then
    Raise ValueError
  else Ok (folds_from (fold_sizes (Z.to_nat n_splits) n_samples) 0
             n_samples).

#[export] Instance env : External := {|
  Model := Z;
  GaussianHMM_fit := fit;
  hmm_score := score;
  np_log := log;
  KFold_split := split
|}.

(** The same collaborators with a fit that never succeeds. *)
Definition env_no_fit : External := {|
  Model := Z;
  GaussianHMM_fit := fun _ _ _ _ => Raise LibraryError;
  hmm_score := score;
  np_log := log;
  KFold_split := split
|}.

(** The same collaborators with a splitter that rejects its arguments, as
    the releases of scikit-learn do that refuse a [random_state] when
    [shuffle] is false. *)
Definition env_no_split : External := {|
  Model := Z;
  GaussianHMM_fit := fit;
  hmm_score := score;
  np_log := log;
  KFold_split := fun _ _ _ => Raise ValueError
|}.

(** The same collaborators with a model of two states whose score is
    not-a-number, as a degenerate fit gives. *)
Definition env_nan : External := {|
  Model := Z;
  GaussianHMM_fit := fit;
  hmm_score := fun m X lengths => if m =? 2 then Ok NaN else score m X lengths;
  np_log := log;
  KFold_split := split
|}.

(** Frames with one feature. *)
Definition f (z : Z) : frame := [of_Z z].

Definition seq_a : sequence := [f 1; f 2; f 3].
Definition seq_b : sequence := [f 4; f 5; f 6].
Definition seq_c : sequence := [f 7; f 8].
(** a recording with a frame that cannot be scored *)
Definition seq_bad : sequence := [f 1; []; f 2].
Definition seq_short : sequence := [f 9].

(** The concatenated matrix and the lengths of a list of sequences, as the
    data set precomputes them. *)
Definition Xlengths_of (seqs : list sequence) : Xlengths :=
  (concat seqs, map (fun s => Z.of_nat (length s)) seqs).

Definition selector (ws : dict (list sequence)) (word : string)
    (lo hi : Z) : result ModelSelector :=
  ModelSelector_init ws (map (fun kv => (fst kv, Xlengths_of (snd kv))) ws)
    word 3 lo hi 14 false.

Definition get (r : result ModelSelector) : ModelSelector :=
  match r with
  | Ok s => s
  | Raise _ =>
      {| words := []; hwords := []; sequences := []; X := [];
         lengths := []; this_word := ""; n_constant := 3;
         min_n_components := 2; max_n_components := 10;
         random_state := 14; verbose := false |}
  end.

(** Two classes with two recordings each. *)
Definition two_words : dict (list sequence) :=
  [("BOOK"%string, [seq_a; seq_b]); ("CHAIR"%string, [seq_c; seq_a])].

(** One class only. *)
Definition one_word : dict (list sequence) :=
  [("BOOK"%string, [seq_a; seq_b])].

(** A class with a single recording. *)
Definition single_recording : dict (list sequence) :=
  [("BOOK"%string, [seq_a]); ("CHAIR"%string, [seq_c; seq_a])].

(** A class whose recordings are too short for two states when one of
    them is held out. *)
Definition short_recordings : dict (list sequence) :=
  [("BOOK"%string, [seq_short; seq_short])].

(** A class with too few frames for any state count of the range. *)
Definition tiny : dict (list sequence) :=
  [("BOOK"%string, [seq_short]); ("CHAIR"%string, [seq_c])].

(** A class whose data cannot be scored. *)
Definition bad_data : dict (list sequence) :=
  [("BOOK"%string, [seq_bad; seq_a]); ("CHAIR"%string, [seq_c])].

(** A class next to one whose data cannot be scored. *)
Definition bad_other : dict (list sequence) :=
  [("BOOK"%string, [seq_a; seq_b]); ("CHAIR"%string, [seq_bad])].

(** Three recordings, the second of which cannot be scored. *)
Definition bad_middle : dict (list sequence) :=
  [("BOOK"%string, [seq_a; seq_bad; seq_c])].

Definition sel_two : ModelSelector := get (selector two_words "BOOK" 2 4).
Definition sel_one : ModelSelector := get (selector one_word "BOOK" 2 3).
Definition sel_single : ModelSelector :=
  get (selector single_recording "BOOK" 2 4).
Definition sel_short : ModelSelector :=
  get (selector short_recordings "BOOK" 2 3).
Definition sel_empty_range : ModelSelector :=
  get (selector two_words "BOOK" 5 2).
Definition sel_bad_other : ModelSelector :=
  get (selector bad_other "BOOK" 2 3).
Definition sel_tiny : ModelSelector := get (selector tiny "BOOK" 2 3).
Definition sel_bad : ModelSelector := get (selector bad_data "BOOK" 2 3).
Definition sel_bad_middle : ModelSelector :=
  get (selector bad_middle "BOOK" 2 3).

(** A table of models and a test set for [recognize]. *)
Definition table : dict (option Model) :=
  [("BOOK"%string, Some 2); ("CHAIR"%string, Some 3);
   ("NONE"%string, None)].

Definition test_set : SinglesData :=
  [Xlengths_of [seq_a]; Xlengths_of [seq_bad]].

End Toy.

(** * Properties *)

(** ** The order on floats *)

Lemma Qltb_lt (a b : Q) : Qltb a b = true <-> (a < b)%Q.
Proof.
  unfold Qltb. rewrite negb_true_iff. split.
  - intros H. apply Qnot_le_lt. intros Hle.
    apply Qle_bool_iff in Hle. congruence.
  - intros H. destruct (Qle_bool b a) eqn:Hb; [|reflexivity].
    apply Qle_bool_iff in Hb. exfalso. exact (Qlt_not_le _ _ H Hb).
Qed.

Lemma ltb_irrefl (a : float) : ltb a a = false.
Proof.
  destruct a; simpl; try reflexivity.
  destruct (Qltb q q) eqn:H; [|reflexivity].
  apply Qltb_lt in H. exfalso. exact (Qlt_irrefl _ H).
Qed.

Lemma ltb_trans (a b c : float) :
  ltb a b = true -> ltb b c = true -> ltb a c = true.
Proof.
  destruct a, b, c; simpl; try congruence.
  rewrite !Qltb_lt. apply Qlt_trans.
Qed.

Lemma gtb_irrefl (a : float) : gtb a a = false.
Proof. apply ltb_irrefl. Qed.

Lemma gtb_trans (a b c : float) :
  gtb a b = true -> gtb b c = true -> gtb a c = true.
Proof. unfold gtb. intros H1 H2. exact (ltb_trans _ _ _ H2 H1). Qed.

(** Nothing is below minus infinity. *)
Lemma ltb_NInf_r (a : float) : ltb a NInf = false.
Proof. destruct a; reflexivity. Qed.

(** ** [min] and [max] *)

Section BestFrom.

Context {A : Type} (better : float -> float -> bool) (key : A -> float).

Hypothesis better_irrefl : forall a, better a a = false.
Hypothesis better_trans :
  forall a b c, better a b = true -> better b c = true -> better a c = true.

Lemma best_from_In (l : list A) (best : A) :
  In (best_from better key best l) (best :: l).
Proof.
  revert best. induction l as [|y r IH]; intros best; simpl.
  - now left.
  - destruct (IH (if better (key y) (key best) then y else best)) as [H|H].
    + destruct (better (key y) (key best)); [right; left|left]; exact H.
    + now right; right.
Qed.

(** The result is the starting item or strictly better than it. *)
Lemma best_from_cases (l : list A) (best : A) :
  best_from better key best l = best \/
  better (key (best_from better key best l)) (key best) = true.
Proof.
  revert best. induction l as [|y r IH]; intros best; simpl.
  - now left.
  - destruct (better (key y) (key best)) eqn:Hy.
    + right. destruct (IH y) as [->|H]; [exact Hy|].
      exact (better_trans _ _ _ H Hy).
    + apply IH.
Qed.

Lemma best_from_start (l : list A) (best : A) :
  better (key best) (key (best_from better key best l)) = false.
Proof.
  destruct (best_from_cases l best) as [->|H]; [apply better_irrefl|].
  destruct (better (key best) (key (best_from better key best l))) eqn:Hb;
    [|reflexivity].
  rewrite <- (better_irrefl (key best)). symmetry.
  exact (better_trans _ _ _ Hb H).
Qed.

(** No item of the list is strictly better than the result. *)
Lemma best_from_optimal (l : list A) (best x : A) :
  In x (best :: l) ->
  better (key x) (key (best_from better key best l)) = false.
Proof.
  intros [<-|Hx]; [apply best_from_start|].
  revert best. induction l as [|y r IH]; intros best; [destruct Hx|].
  destruct Hx as [<-|Hx]; [|apply IH; exact Hx].
  simpl. destruct (better (key y) (key best)) eqn:Hy.
  - apply best_from_start.
  - destruct (best_from_cases r best) as [->|H]; [exact Hy|].
    destruct (better (key y) (key (best_from better key best r))) eqn:Hb;
      [|reflexivity].
    rewrite <- Hy. symmetry. exact (better_trans _ _ _ Hb H).
Qed.

End BestFrom.

Lemma py_min_spec {A : Type} (key : A -> float) (l : list A) :
  l <> [] ->
  exists best, py_min key l = Ok best /\ In best l /\
    forall x, In x l -> ltb (key x) (key best) = false.
Proof.
  destruct l as [|a r]; [congruence|]. intros _.
  exists (best_from ltb key a r). split; [reflexivity|]. split.
  - apply best_from_In.
  - intros x Hx.
    apply (best_from_optimal ltb key ltb_irrefl ltb_trans r a x Hx).
Qed.

Lemma py_max_spec {A : Type} (key : A -> float) (l : list A) :
  l <> [] ->
  exists best, py_max key l = Ok best /\ In best l /\
    forall x, In x l -> gtb (key x) (key best) = false.
Proof.
  destruct l as [|a r]; [congruence|]. intros _.
  exists (best_from gtb key a r). split; [reflexivity|]. split.
  - apply best_from_In.
  - intros x Hx.
    apply (best_from_optimal gtb key gtb_irrefl gtb_trans r a x Hx).
Qed.

(** ** [range] *)

Lemma range_length (lo hi : Z) : length (range lo hi) = Z.to_nat (hi - lo).
Proof. unfold range. now rewrite length_map, length_seq. Qed.

Lemma range_In (lo hi s : Z) : In s (range lo hi) <-> lo <= s < hi.
Proof.
  unfold range. rewrite in_map_iff. split.
  - intros (i & <- & Hi). apply in_seq in Hi. lia.
  - intros H. exists (Z.to_nat (s - lo)). split; [lia|].
    apply in_seq. lia.
Qed.

Lemma range_nonempty (lo hi : Z) : lo < hi -> range lo hi <> [].
Proof.
  intros H Hnil. apply (f_equal (@length Z)) in Hnil.
  rewrite range_length in Hnil. simpl in Hnil. lia.
Qed.

Lemma range_cons (lo hi : Z) :
  lo < hi -> range lo hi = lo :: range (lo + 1) hi.
Proof.
  intros H. unfold range.
  replace (Z.to_nat (hi - lo)) with (S (Z.to_nat (hi - (lo + 1)))) by lia.
  simpl. f_equal; [lia|].
  rewrite <- seq_shift, map_map. apply map_ext. intros i. lia.
Qed.

Lemma range_nth_error (lo hi s : Z) :
  lo <= s < hi -> nth_error (range lo hi) (Z.to_nat (s - lo)) = Some s.
Proof.
  intros H. unfold range. rewrite nth_error_map, nth_error_seq.
  destruct (Nat.ltb_spec (Z.to_nat (s - lo)) (Z.to_nat (hi - lo)));
    [|lia].
  cbn [option_map Nat.add]. f_equal. lia.
Qed.

(** ** The candidate lists of [SelectorBIC] and [SelectorDIC] *)

Section CandidateLists.

Context {E : External}.

Lemma candidate_range_In (self : ModelSelector) (s : Z) :
  In s (candidate_range self) <->
  min_n_components self <= s <= max_n_components self.
Proof. unfold candidate_range. rewrite range_In. lia. Qed.

Lemma candidate_range_length (self : ModelSelector) :
  min_n_components self <= max_n_components self + 1 ->
  Z.of_nat (length (candidate_range self)) =
  max_n_components self - min_n_components self + 1.
Proof. intros H. unfold candidate_range. rewrite range_length. lia. Qed.

Lemma candidate_range_nonempty (self : ModelSelector) :
  min_n_components self <= max_n_components self ->
  candidate_range self <> [].
Proof. intros H. apply range_nonempty. lia. Qed.

Lemma map_nonempty {A B : Type} (f : A -> B) (l : list A) :
  l <> [] -> map f l <> [].
Proof. destruct l; [congruence|discriminate]. Qed.

(** On a range that is not empty [SelectorBIC.select] returns the second
    component of a candidate no other candidate is strictly below. *)
Lemma SelectorBIC_select_minimum (self : ModelSelector) :
  min_n_components self <= max_n_components self ->
  exists BIC best_model,
    SelectorBIC_select self = Ok best_model /\
    In (BIC, best_model) (SelectorBIC_models self) /\
    forall b m, In (b, m) (SelectorBIC_models self) -> ltb b BIC = false.
Proof.
  intros H. unfold SelectorBIC_select.
  destruct (py_min_spec fst (SelectorBIC_models self))
    as ([BIC best] & -> & Hin & Hmin).
  - apply map_nonempty, candidate_range_nonempty, H.
  - exists BIC, best. split; [reflexivity|]. split; [exact Hin|].
    intros b m Hb. exact (Hmin (b, m) Hb).
Qed.

Lemma SelectorDIC_select_maximum (self : ModelSelector) :
  min_n_components self <= max_n_components self ->
  exists DIC best_model,
    SelectorDIC_select self = Ok best_model /\
    In (DIC, best_model) (SelectorDIC_models self) /\
    forall d m, In (d, m) (SelectorDIC_models self) -> gtb d DIC = false.
Proof.
  intros H. unfold SelectorDIC_select.
  destruct (py_max_spec fst (SelectorDIC_models self))
    as ([DIC best] & -> & Hin & Hmax).
  - apply map_nonempty, candidate_range_nonempty, H.
  - exists DIC, best. split; [reflexivity|]. split; [exact Hin|].
    intros d m Hd. exact (Hmax (d, m) Hd).
Qed.

(** A failed fit leaves [None], and scoring [None] raises. *)
Lemma base_model_None (self : ModelSelector) (s : Z) :
  is_Raise (GaussianHMM_fit s (random_state self) (X self) (lengths self))
    = true ->
  base_model self s = None.
Proof.
  unfold base_model.
  destruct (GaussianHMM_fit _ _ _ _); [discriminate|reflexivity].
Qed.

Lemma SelectorBIC_candidate_fit_failed (self : ModelSelector) (n s : Z) :
  base_model self s = None ->
  SelectorBIC_candidate self n s = (NInf, None).
Proof. unfold SelectorBIC_candidate. now intros ->. Qed.

Lemma SelectorDIC_candidate_fit_failed (self : ModelSelector) (s : Z) :
  base_model self s = None ->
  SelectorDIC_candidate self s = (NInf, None).
Proof. unfold SelectorDIC_candidate, DIC_score. now intros ->. Qed.

(** When the class is the only key of [self.words], nothing is appended
    to [adv_scores]. *)
Lemma DIC_adv_scores_alone (self : ModelSelector) (m : option Model)
    (ws : list string) (acc : list float) :
  (forall w, In w ws -> w = this_word self) ->
  DIC_adv_scores self m ws acc = Ok acc.
Proof.
  induction ws as [|w r IH]; intros H; simpl; [reflexivity|].
  rewrite (H w (or_introl eq_refl)), String.eqb_refl. simpl.
  apply IH. intros w' Hw'. apply H. now right.
Qed.

Lemma sub_NaN (a : float) : sub a NaN = NaN.
Proof. destruct a; reflexivity. Qed.

End CandidateLists.

(** ** The loops of [SelectorCV] *)

Section CVLoops.

Context {E : External}.

Lemma same_config_refl (a : ModelSelector) : same_config a a.
Proof. unfold same_config. tauto. Qed.

Lemma same_config_trans (a b c : ModelSelector) :
  same_config a b -> same_config b c -> same_config a c.
Proof. unfold same_config. intuition congruence. Qed.

Lemma same_config_candidate_range (a b : ModelSelector) :
  same_config a b -> candidate_range a = candidate_range b.
Proof.
  unfold same_config, candidate_range. intros H.
  decompose [and] H. congruence.
Qed.

Lemma same_config_fold_score (a b : ModelSelector) (s : Z)
    (fold : list nat * list nat) :
  same_config a b -> fold_score a s fold = fold_score b s fold.
Proof.
  unfold same_config, fold_score. intros H. decompose [and] H.
  repeat match goal with Heq : _ a = _ b |- _ => rewrite Heq; clear Heq end.
  reflexivity.
Qed.

Lemma same_config_folds_of (a b : ModelSelector) :
  same_config a b -> folds_of a = folds_of b.
Proof.
  unfold same_config, folds_of. intros H. decompose [and] H. congruence.
Qed.

(** One fold that scores: the train part is stored in the selector, the
    model is bound and the score is appended. *)
Lemma cv_fold_Ok (s : Z) (fold : list nat * list nat) (st : CVState)
    (sc : float) :
  fold_score (self st) s fold = Ok sc ->
  exists st',
    cv_fold s fold st = (Ok tt, st') /\
    same_config (self st) (self st') /\
    combine_sequences (fst fold) (sequences (self st))
      = Ok (X (self st'), lengths (self st')) /\
    hmm_model st' <> None /\
    cv_results st' = cv_results st ++ [sc] /\
    models st' = models st.
Proof.
  unfold fold_score. destruct fold as [tr te]. cbn [fst snd].
  unfold cv_fold, bind, gets, lift, assign_X, assign_lengths,
    assign_hmm_model, read_hmm_model, cv_results_append, modify.
  cbn [self hmm_model cv_results models].
  destruct (combine_sequences tr _) as [[Xtr ltr]|e]; [|discriminate].
  destruct (combine_sequences te _) as [[Xte lte]|e]; [|discriminate].
  unfold base_model. cbn [random_state X lengths set_X set_lengths].
  destruct (GaussianHMM_fit s _ Xtr ltr) as [m|e]; [|discriminate].
  cbn [score]. intros ->. eexists. split; [reflexivity|].
  cbn. repeat split; try reflexivity. discriminate.
Qed.

(** One fold that fails: the score list and the candidate list are as
    before, and the exception leaves the body. *)
Lemma cv_fold_Raise (s : Z) (fold : list nat * list nat) (st : CVState) :
  is_Raise (fold_score (self st) s fold) = true ->
  exists e st',
    cv_fold s fold st = (Raise e, st') /\
    same_config (self st) (self st') /\
    stored_from (self st) [fold] (self st') /\
    (hmm_model st <> None -> hmm_model st' <> None) /\
    cv_results st' = cv_results st /\
    models st' = models st.
Proof.
  unfold fold_score. destruct fold as [tr te]. cbn [fst snd].
  unfold cv_fold, bind, gets, lift, assign_X, assign_lengths,
    assign_hmm_model, read_hmm_model, cv_results_append, modify.
  cbn [self hmm_model cv_results models].
  destruct (combine_sequences tr _) as [[Xtr ltr]|e] eqn:Htr.
  2:{ intros _. exists e, st.
      repeat split; auto using same_config_refl. now left. }
  destruct (combine_sequences te _) as [[Xte lte]|e].
  2:{ intros _. exists e, st.
      repeat split; auto using same_config_refl. now left. }
  unfold base_model. cbn [random_state X lengths set_X set_lengths].
  assert (Hst : forall now, X now = Xtr -> lengths now = ltr ->
            stored_from (self st) [(tr, te)] now).
  { intros now HX Hl. right. exists (tr, te). split; [now left|].
    cbn [fst]. now rewrite Htr, HX, Hl. }
  destruct (GaussianHMM_fit s _ Xtr ltr) as [m|e]; cbn [score].
  - destruct (hmm_score m Xte lte) as [sc|e]; [discriminate|].
    intros _. eexists _, _. split; [reflexivity|].
    cbn [self hmm_model cv_results models].
    split; [unfold same_config; cbn; tauto|].
    split; [now apply Hst|]. repeat split. discriminate.
  - intros _. eexists _, _. split; [reflexivity|].
    cbn [self hmm_model cv_results models].
    split; [unfold same_config; cbn; tauto|].
    split; [now apply Hst|]. repeat split. discriminate.
Qed.

Lemma fold_score_cases (self : ModelSelector) (s : Z)
    (fold : list nat * list nat) :
  (exists sc, fold_score self s fold = Ok sc) \/
  is_Raise (fold_score self s fold) = true.
Proof. destruct (fold_score self s fold); [left; eauto|now right]. Qed.

Lemma for_each_cons {A : Type} (x : A) (r : list A) (body : A -> M unit)
    (st : CVState) :
  for_each (x :: r) body st =
  match body x st with
  | (Ok _, st') => for_each r body st'
  | (Raise e, st') => (Raise e, st')
  end.
Proof. reflexivity. Qed.

Lemma stored_from_step (this mid now : ModelSelector)
    (f : list nat * list nat) (r : list (list nat * list nat)) :
  same_config this mid ->
  stored_from this [f] mid -> stored_from mid r now ->
  stored_from this (f :: r) now.
Proof.
  intros Hc H1 [[HX Hl]|(fold & Hin & Hfold)].
  - destruct H1 as [[HX1 Hl1]|(fold & [<-|[]] & Hfold)].
    + left. split; congruence.
    + right. exists f. split; [now left|]. now rewrite HX, Hl.
  - right. exists fold. split; [now right|].
    destruct Hc as (_ & _ & -> & _). exact Hfold.
Qed.

(** The loop over the folds, however it ends. *)
Lemma for_each_folds_inv (s : Z) (folds : list (list nat * list nat))
    (st : CVState) :
  exists r st' extra,
    for_each folds (cv_fold s) st = (r, st') /\
    same_config (self st) (self st') /\
    stored_from (self st) folds (self st') /\
    models st' = models st /\
    cv_results st' = cv_results st ++ extra /\
    (length extra <= length folds)%nat /\
    (extra <> [] -> hmm_model st' <> None) /\
    (hmm_model st <> None -> hmm_model st' <> None).
Proof.
  revert st. induction folds as [|f r IH]; intros st.
  - exists (Ok tt), st, []. rewrite app_nil_r.
    split; [reflexivity|]. split; [apply same_config_refl|].
    split; [now left|]. repeat split; auto.
  - rewrite for_each_cons.
    destruct (fold_score_cases (self st) s f) as [[sc Hsc]|Hf].
    + destruct (cv_fold_Ok s f st sc Hsc)
        as (st1 & -> & Hc1 & Hx1 & Hm1 & Hr1 & Hms1).
      destruct (IH st1)
        as (res & st' & extra & -> & Hc & Hx & Hms & Hr & Hlen & _ & Hm).
      exists res, st', (sc :: extra).
      split; [reflexivity|]. split; [eapply same_config_trans; eauto|].
      split.
      { apply stored_from_step with (self st1); auto.
        right. exists f. split; [now left|exact Hx1]. }
      split; [congruence|]. split.
      { rewrite Hr, Hr1, <- app_assoc. reflexivity. }
      split; [simpl; lia|]. split; auto.
    + destruct (cv_fold_Raise s f st Hf)
        as (e & st' & -> & Hc & Hx & Hm & Hr & Hms).
      exists (Raise e), st', []. rewrite app_nil_r.
      split; [reflexivity|]. split; [exact Hc|]. split.
      { apply stored_from_step with (self st'); auto.
        left. split; reflexivity. }
      repeat split; auto; simpl; try lia; congruence.
Qed.

(** The folds that score before the first one that does not. *)
Lemma for_each_folds_prefix (s : Z) (pre rest : list (list nat * list nat))
    (scores : list float) (st : CVState) :
  Forall2 (fun fold sc => fold_score (self st) s fold = Ok sc) pre scores ->
  exists st1,
    for_each (pre ++ rest) (cv_fold s) st = for_each rest (cv_fold s) st1 /\
    same_config (self st) (self st1) /\
    stored_from (self st) pre (self st1) /\
    models st1 = models st /\
    cv_results st1 = cv_results st ++ scores /\
    (pre <> [] -> hmm_model st1 <> None) /\
    (hmm_model st <> None -> hmm_model st1 <> None).
Proof.
  intros H. revert st H. revert scores.
  induction pre as [|f r IH]; intros scores st H.
  - inversion H; subst. exists st. rewrite app_nil_r.
    split; [reflexivity|]. split; [apply same_config_refl|].
    split; [now left|]. repeat split; auto; congruence.
  - inversion H as [|? sc ? scs Hsc Hrest]; subst.
    cbn [app]. rewrite for_each_cons.
    destruct (cv_fold_Ok s f st sc Hsc)
      as (st1 & -> & Hc1 & Hx1 & Hm1 & Hr1 & Hms1).
    destruct (IH scs st1) as (st2 & -> & Hc & Hx & Hms & Hr & _ & Hm).
    { eapply Forall2_impl; [|exact Hrest]. intros fold sc' Hs.
      now rewrite <- (same_config_fold_score _ _ s fold Hc1). }
    exists st2. split; [reflexivity|].
    split; [eapply same_config_trans; eauto|]. split.
    { apply stored_from_step with (self st1); auto.
      right. exists f. split; [now left|exact Hx1]. }
    split; [congruence|]. split.
    { rewrite Hr, Hr1, <- app_assoc. reflexivity. }
    split; auto.
Qed.

Lemma stored_by_select_refl (a : ModelSelector) : stored_by_select a a.
Proof. left. split; reflexivity. Qed.

Lemma stored_by_select_trans (a b c : ModelSelector) :
  same_config a b ->
  stored_by_select a b -> stored_by_select b c -> stored_by_select a c.
Proof.
  intros Hc H1 [[HX Hl]|(folds & fold & Hf & Hin & Hfold)].
  - destruct H1 as [[HX1 Hl1]|(folds & fold & Hf & Hin & Hfold)].
    + left. split; congruence.
    + right. exists folds, fold. rewrite HX, Hl. auto.
  - right. exists folds, fold.
    rewrite (same_config_folds_of a b Hc).
    destruct Hc as (_ & _ & -> & _). auto.
Qed.

Lemma stored_from_by_select (this now : ModelSelector)
    (folds : list (list nat * list nat)) :
  folds_of this = Ok folds ->
  stored_from this folds now -> stored_by_select this now.
Proof.
  intros Hf [H|(fold & Hin & Hfold)]; [now left|].
  right. exists folds, fold. auto.
Qed.

(** The [else] branch never raises: an error of the splitter or of a fold
    ends the loop and is dropped. *)
Lemma cv_folds_eq (s : Z) (st : CVState) :
  cv_folds s st =
  match folds_of (self st) with
  | Raise _ => (Ok tt, st)
  | Ok folds => (Ok tt, snd (for_each folds (cv_fold s) st))
  end.
Proof.
  unfold cv_folds, try_except, bind, gets, lift, folds_of, ret.
  destruct (KFold_split _ _ _) as [folds|e]; [|reflexivity].
  destruct (for_each folds (cv_fold s) st) as [[[]|e] st']; reflexivity.
Qed.

(** The branch of a class with one sequence never raises either, and does
    not touch the selector. *)
Lemma cv_single_eq (s : Z) (st : CVState) :
  cv_single s st =
  (Ok tt,
   {| self := self st;
      hmm_model := Some (base_model (self st) s);
      cv_results := cv_results st ++ [single_result (self st) s];
      models := models st |}).
Proof.
  unfold cv_single, single_result, try_except, bind, gets, lift,
    assign_hmm_model, read_hmm_model, cv_results_append, modify.
  cbn [self hmm_model cv_results models].
  destruct (score _ _ _); reflexivity.
Qed.

Lemma cv_candidate_eq (s : Z) (st : CVState) :
  cv_candidate s st =
  let st0 := {| self := self st; hmm_model := hmm_model st;
                cv_results := []; models := models st |} in
  let st1 := snd (if (length (sequences (self st)) =? 1)%nat
                  then cv_single s st0 else cv_folds s st0) in
  if (0 <? length (cv_results st1))%nat then
    match hmm_model st1 with
    | Some m =>
        (Ok tt,
         {| self := self st1; hmm_model := Some m;
            cv_results := cv_results st1;
            models := models st1 ++ [(np_mean (cv_results st1), m)] |})
    | None => (Raise NameError, st1)
    end
  else (Ok tt, st1).
Proof.
  unfold cv_candidate, bind, gets, new_cv_results, modify.
  cbn [self hmm_model cv_results models].
  destruct (length (sequences (self st)) =? 1)%nat.
  - rewrite cv_single_eq. cbn [snd self hmm_model cv_results models].
    destruct (0 <? _)%nat; reflexivity.
  - rewrite cv_folds_eq. cbn [self].
    destruct (folds_of (self st)) as [folds|e].
    + cbn [snd].
      destruct (0 <? _)%nat; [|reflexivity].
      unfold read_hmm_model, models_append, modify.
      destruct (hmm_model _) eqn:Hm; cbn; rewrite ?Hm; reflexivity.
    + cbn [snd cv_results]. reflexivity.
Qed.

(** The evaluation of a state count of a class with one sequence. *)
Lemma cv_candidate_single (s : Z) (st : CVState) :
  length (sequences (self st)) = 1%nat ->
  cv_candidate s st =
  (Ok tt,
   {| self := self st;
      hmm_model := Some (base_model (self st) s);
      cv_results := [single_result (self st) s];
      models := models st
                ++ [(np_mean [single_result (self st) s],
                     base_model (self st) s)] |}).
Proof.
  intros H. rewrite cv_candidate_eq. rewrite H. cbn [Nat.eqb].
  rewrite cv_single_eq. reflexivity.
Qed.

(** The evaluation of a state count of a class with several sequences (or
    none), when the folds [pre] score and the next fold, if there is one,
    fails: the scores of [pre] are all there is, and the candidate is
    recorded exactly when there is one of them. *)
Lemma cv_candidate_folds (s : Z) (st : CVState)
    (pre rest : list (list nat * list nat)) (scores : list float) :
  length (sequences (self st)) <> 1%nat ->
  folds_of (self st) = Ok (pre ++ rest) ->
  Forall2 (fun fold sc => fold_score (self st) s fold = Ok sc) pre scores ->
  match rest with
  | [] => True
  | f :: _ => is_Raise (fold_score (self st) s f) = true
  end ->
  exists st',
    cv_candidate s st = (Ok tt, st') /\
    cv_results st' = scores /\
    same_config (self st) (self st') /\
    match scores with
    | [] => models st' = models st
    | _ :: _ => exists m, models st' = models st ++ [(np_mean scores, m)]
    end.
Proof.
  intros Hlen Hfolds Hpre Hrest. rewrite cv_candidate_eq. cbv zeta.
  apply Nat.eqb_neq in Hlen. rewrite Hlen.
  rewrite cv_folds_eq. cbn [self]. rewrite Hfolds. cbn [snd].
  set (st0 := {| self := self st; hmm_model := hmm_model st;
                 cv_results := []; models := models st |}).
  destruct (for_each_folds_prefix s pre rest scores st0 Hpre)
    as (st1 & -> & Hc1 & _ & Hms1 & Hr1 & Hm1 & _).
  cbn [cv_results models st0 app] in Hr1, Hms1.
  assert (Hend : exists st2, snd (for_each rest (cv_fold s) st1) = st2 /\
            cv_results st2 = scores /\ models st2 = models st /\
            same_config (self st) (self st2) /\
            (scores <> [] -> hmm_model st2 <> None)).
  { destruct rest as [|f r].
    - exists st1. split; [reflexivity|]. split; [exact Hr1|].
      split; [exact Hms1|]. split; [exact Hc1|].
      intros Hs. apply Hm1. intros ->. inversion Hpre; subst. congruence.
    - rewrite for_each_cons.
      change (self st) with (self st0) in Hrest.
      rewrite (same_config_fold_score _ _ s f Hc1) in Hrest.
      destruct (cv_fold_Raise s f st1 Hrest)
        as (e & st2 & -> & Hc2 & _ & Hm2 & Hr2 & Hms2).
      exists st2. cbn [snd]. split; [reflexivity|].
      split; [congruence|]. split; [congruence|].
      split; [eapply same_config_trans; eauto|].
      intros Hs. apply Hm2, Hm1. intros ->. inversion Hpre; subst.
      congruence. }
  destruct Hend as (st2 & -> & Hr2 & Hms2 & Hc2 & Hm2).
  rewrite Hr2. destruct scores as [|sc scs].
  - cbn. exists st2. auto.
  - cbn [length Nat.ltb Nat.leb].
    destruct (hmm_model st2) as [m|] eqn:Hm; [|now destruct Hm2].
    eexists. split; [reflexivity|]. cbn [cv_results self models].
    split; [reflexivity|]. split; [exact Hc2|]. exists m. now rewrite Hms2.
Qed.

(** The evaluation of a state count never raises; it records at most one
    candidate and changes the selector at most in the stored data. *)
Lemma cv_candidate_inv (s : Z) (st : CVState) :
  exists st' tail,
    cv_candidate s st = (Ok tt, st') /\
    same_config (self st) (self st') /\
    stored_by_select (self st) (self st') /\
    models st' = models st ++ tail /\
    (length tail <= 1)%nat.
Proof.
  destruct (Nat.eq_dec (length (sequences (self st))) 1) as [H1|H1].
  - rewrite (cv_candidate_single s st H1). eexists _, _.
    split; [reflexivity|]. cbn [self models].
    split; [apply same_config_refl|].
    split; [apply stored_by_select_refl|]. split; [reflexivity|].
    simpl. lia.
  - rewrite cv_candidate_eq. cbv zeta.
    apply Nat.eqb_neq in H1. rewrite H1. rewrite cv_folds_eq. cbn [self].
    destruct (folds_of (self st)) as [folds|e] eqn:Hf.
    + set (st0 := {| self := self st; hmm_model := hmm_model st;
                     cv_results := []; models := models st |}).
      destruct (for_each_folds_inv s folds st0)
        as (r & st1 & extra & -> & Hc & Hx & Hms & Hr & _ & Hm & _).
      cbn [snd]. cbn [cv_results models self st0 app] in *.
      apply (stored_from_by_select _ _ _ Hf) in Hx.
      rewrite Hr. destruct extra as [|sc scs].
      * exists st1, []. rewrite app_nil_r. cbn.
        split; [reflexivity|]. split; [exact Hc|]. split; [exact Hx|].
        split; [exact Hms|]. lia.
      * cbn [length Nat.ltb Nat.leb].
        destruct (hmm_model st1) as [m|] eqn:Hm1;
          [|exfalso; apply Hm; [discriminate|reflexivity]].
        eexists _, _. split; [reflexivity|]. cbn [self models].
        split; [exact Hc|]. split; [exact Hx|].
        split; [rewrite Hms; reflexivity|]. simpl. lia.
    + cbn. exists {| self := self st; hmm_model := hmm_model st;
                    cv_results := []; models := models st |}, [].
      rewrite app_nil_r. cbn [self models].
      split; [reflexivity|]. split; [apply same_config_refl|].
      split; [apply stored_by_select_refl|]. split; [reflexivity|].
      simpl. lia.
Qed.

(** The loop over the state counts. *)
Lemma for_each_candidates_inv (rng : list Z) (st : CVState) :
  exists st' tail,
    for_each rng cv_candidate st = (Ok tt, st') /\
    same_config (self st) (self st') /\
    stored_by_select (self st) (self st') /\
    models st' = models st ++ tail /\
    (length tail <= length rng)%nat.
Proof.
  revert st. induction rng as [|s r IH]; intros st.
  - exists st, []. rewrite app_nil_r.
    split; [reflexivity|]. split; [apply same_config_refl|].
    split; [apply stored_by_select_refl|]. split; [reflexivity|].
    simpl. lia.
  - rewrite for_each_cons.
    destruct (cv_candidate_inv s st)
      as (st1 & t1 & -> & Hc1 & Hx1 & Hms1 & Hl1).
    destruct (IH st1) as (st2 & t2 & -> & Hc2 & Hx2 & Hms2 & Hl2).
    exists st2, (t1 ++ t2). split; [reflexivity|].
    split; [eapply same_config_trans; eauto|].
    split; [eapply stored_by_select_trans; eauto|].
    split; [rewrite Hms2, Hms1, app_assoc; reflexivity|].
    rewrite length_app. simpl. lia.
Qed.

(** With one sequence every state count of the range is recorded, and the
    selector is not touched. *)
Lemma for_each_candidates_single (rng : list Z) (st : CVState) :
  length (sequences (self st)) = 1%nat ->
  exists st',
    for_each rng cv_candidate st = (Ok tt, st') /\
    self st' = self st /\
    models st' =
      models st
      ++ map (fun s => (np_mean [single_result (self st) s],
                        base_model (self st) s)) rng.
Proof.
  revert st. induction rng as [|s r IH]; intros st H1.
  - exists st. rewrite app_nil_r. auto.
  - rewrite for_each_cons, (cv_candidate_single s st H1).
    destruct (IH {| self := self st;
                    hmm_model := Some (base_model (self st) s);
                    cv_results := [single_result (self st) s];
                    models := models st
                      ++ [(np_mean [single_result (self st) s],
                           base_model (self st) s)] |} H1)
      as (st' & -> & Hs & Hms).
    exists st'. split; [reflexivity|]. split; [exact Hs|].
    rewrite Hms. cbn [self models map]. now rewrite <- app_assoc.
Qed.

(** [select] in terms of the list it builds: the loop never raises, so the
    only error is that of [max] on an empty list. *)
Lemma SelectorCV_select_eq (this : ModelSelector) :
  SelectorCV_select this =
  (match py_max fst (SelectorCV_models this) with
   | Ok (best_score, best_model) => Ok best_model
   | Raise e => Raise e
   end,
   self (snd (for_each (candidate_range this) cv_candidate (cv_init this)))).
Proof.
  unfold SelectorCV_select, SelectorCV_models, SelectorCV_body, bind, gets,
    lift, ret.
  change (self (cv_init this)) with this.
  destruct (for_each_candidates_inv (candidate_range this) (cv_init this))
    as (st' & tail & Heq & _).
  rewrite Heq. cbn [snd].
  destruct (py_max fst (models st')) as [[sc m]|e]; reflexivity.
Qed.

(** When no fit ever succeeds, a class with several sequences (or none)
    gets no candidate. *)
Lemma cv_candidate_no_fit (s : Z) (st : CVState) :
  (forall n rs X l, is_Raise (GaussianHMM_fit n rs X l) = true) ->
  length (sequences (self st)) <> 1%nat ->
  exists st',
    cv_candidate s st = (Ok tt, st') /\
    same_config (self st) (self st') /\
    models st' = models st.
Proof.
  intros Hfit Hlen.
  assert (Hfold : forall sel f, is_Raise (fold_score sel s f) = true).
  { intros sel f. unfold fold_score.
    destruct (combine_sequences (fst f) _) as [[Xtr ltr]|e]; [|reflexivity].
    destruct (combine_sequences (snd f) _) as [[Xte lte]|e]; [|reflexivity].
    specialize (Hfit s (random_state sel) Xtr ltr).
    destruct (GaussianHMM_fit _ _ _ _); [discriminate|reflexivity]. }
  destruct (folds_of (self st)) as [folds|e] eqn:Hf.
  - destruct (cv_candidate_folds s st [] folds [] Hlen Hf (Forall2_nil _))
      as (st' & Heq & _ & Hc & Hms).
    + destruct folds; [exact I|apply Hfold].
    + exists st'. auto.
  - rewrite cv_candidate_eq. cbv zeta.
    apply Nat.eqb_neq in Hlen. rewrite Hlen, cv_folds_eq. cbn [self].
    rewrite Hf. cbn. eexists. split; [reflexivity|]. cbn [self models].
    split; [apply same_config_refl|reflexivity].
Qed.

Lemma for_each_candidates_no_fit (rng : list Z) (st : CVState) :
  (forall n rs X l, is_Raise (GaussianHMM_fit n rs X l) = true) ->
  length (sequences (self st)) <> 1%nat ->
  exists st',
    for_each rng cv_candidate st = (Ok tt, st') /\
    same_config (self st) (self st') /\
    models st' = models st.
Proof.
  intros Hfit. revert st. induction rng as [|s r IH]; intros st Hlen.
  - exists st. split; [reflexivity|].
    split; [apply same_config_refl|reflexivity].
  - rewrite for_each_cons.
    destruct (cv_candidate_no_fit s st Hfit Hlen) as (st1 & -> & Hc1 & Hms1).
    destruct (IH st1) as (st2 & -> & Hc2 & Hms2).
    { destruct Hc1 as (_ & _ & <- & _). exact Hlen. }
    exists st2. split; [reflexivity|].
    split; [eapply same_config_trans; eauto|congruence].
Qed.

End CVLoops.

(** ** Failed fits and the candidate lists *)

Section FailedFits.

Context {E : External}.

Lemma best_from_NInf_start {A : Type} (better : float -> float -> bool)
    (key : A -> float) (start : A) (l : list A) :
  (forall a b c, better a b = true -> better b c = true -> better a c = true)
  ->
  (forall a, better a (key start) = false) ->
  best_from better key start l = start.
Proof.
  intros Htrans Hnone.
  destruct (best_from_cases better key Htrans l start) as [H|H]; [exact H|].
  now rewrite Hnone in H.
Qed.

(** [min] keeps a first item whose key is minus infinity. *)
Lemma py_min_NInf_first {A : Type} (key : A -> float) (x : A)
    (l : list A) :
  key x = NInf -> py_min key (x :: l) = Ok x.
Proof.
  intros Hx. unfold py_min. f_equal.
  apply best_from_NInf_start; [exact ltb_trans|].
  intros a. rewrite Hx. apply ltb_NInf_r.
Qed.

Lemma SelectorBIC_models_cons (self : ModelSelector) :
  min_n_components self <= max_n_components self ->
  SelectorBIC_models self =
  SelectorBIC_candidate self (sum (lengths self)) (min_n_components self)
    :: map (SelectorBIC_candidate self (sum (lengths self)))
         (range (min_n_components self + 1) (max_n_components self + 1)).
Proof.
  intros H. unfold SelectorBIC_models, candidate_range.
  rewrite range_cons by lia. reflexivity.
Qed.

(** A list that holds one value only has that value as its extremum. *)
Lemma py_max_constant {A : Type} (key : A -> float) (l : list A) (v : A) :
  l <> [] -> (forall x, In x l -> x = v) -> py_max key l = Ok v.
Proof.
  intros Hne Hall.
  destruct (py_max_spec key l Hne) as (best & -> & Hin & _).
  now rewrite (Hall best Hin).
Qed.

Lemma py_min_constant {A : Type} (key : A -> float) (l : list A) (v : A) :
  l <> [] -> (forall x, In x l -> x = v) -> py_min key l = Ok v.
Proof.
  intros Hne Hall.
  destruct (py_min_spec key l Hne) as (best & -> & Hin & _).
  now rewrite (Hall best Hin).
Qed.

Lemma SelectorBIC_models_fit_failed (self : ModelSelector) :
  (forall s, min_n_components self <= s <= max_n_components self ->
     fit_fails self s) ->
  forall c, In c (SelectorBIC_models self) -> c = (NInf, None).
Proof.
  intros Hfit c Hc. unfold SelectorBIC_models in Hc.
  apply in_map_iff in Hc. destruct Hc as (s & <- & Hs).
  apply candidate_range_In in Hs.
  apply SelectorBIC_candidate_fit_failed, Hfit, Hs.
Qed.

Lemma SelectorDIC_models_fit_failed (self : ModelSelector) :
  (forall s, min_n_components self <= s <= max_n_components self ->
     fit_fails self s) ->
  forall c, In c (SelectorDIC_models self) -> c = (NInf, None).
Proof.
  intros Hfit c Hc. unfold SelectorDIC_models in Hc.
  apply in_map_iff in Hc. destruct Hc as (s & <- & Hs).
  apply candidate_range_In in Hs.
  apply SelectorDIC_candidate_fit_failed, Hfit, Hs.
Qed.

Lemma candidate_range_empty (self : ModelSelector) :
  max_n_components self < min_n_components self ->
  candidate_range self = [].
Proof.
  intros H. unfold candidate_range, range.
  replace (Z.to_nat _) with 0%nat by lia. reflexivity.
Qed.

Lemma SelectorCV_models_length (this : ModelSelector) :
  (length (SelectorCV_models this) <= length (candidate_range this))%nat.
Proof.
  unfold SelectorCV_models.
  destruct (for_each_candidates_inv (candidate_range this) (cv_init this))
    as (st' & tail & -> & _ & _ & Hms & Hlen).
  cbn [snd]. rewrite Hms. exact Hlen.
Qed.

Lemma SelectorCV_models_single (this : ModelSelector) :
  length (sequences this) = 1%nat ->
  SelectorCV_models this =
  map (fun s => (np_mean [single_result this s], base_model this s))
    (candidate_range this).
Proof.
  intros H1. unfold SelectorCV_models.
  destruct (for_each_candidates_single (candidate_range this)
              (cv_init this) H1) as (st' & -> & _ & Hms).
  cbn [snd]. exact Hms.
Qed.

Lemma SelectorCV_models_no_fit (this : ModelSelector) :
  (forall n rs X l, is_Raise (GaussianHMM_fit n rs X l) = true) ->
  length (sequences this) <> 1%nat ->
  SelectorCV_models this = [].
Proof.
  intros Hfit Hlen. unfold SelectorCV_models.
  destruct (for_each_candidates_no_fit (candidate_range this)
              (cv_init this) Hfit Hlen) as (st' & -> & _ & Hms).
  cbn [snd]. exact Hms.
Qed.

Lemma np_mean_NInf : np_mean [NInf] = NInf.
Proof. reflexivity. Qed.

Lemma single_result_failed (self : ModelSelector) (s : Z) :
  score_fails self s -> single_result self s = NInf.
Proof.
  unfold score_fails, single_result.
  destruct (score _ _ _); [discriminate|reflexivity].
Qed.

Lemma fit_fails_score_fails (self : ModelSelector) (s : Z) :
  fit_fails self s -> score_fails self s.
Proof. unfold fit_fails, score_fails. now intros ->. Qed.

(** X16: what [min] does with the sentinel: once a state count of the
    range has failed, the candidate [SelectorBIC.select] returns is one
    recorded at minus infinity or at not-a-number, never one with a finite
    score. *)
Lemma SelectorBIC_select_after_failure (self : ModelSelector) (s : Z) :
  min_n_components self <= s <= max_n_components self ->
  score_fails self s ->
  exists BIC best_model,
    SelectorBIC_select self = Ok best_model /\
    In (BIC, best_model) (SelectorBIC_models self) /\
    (BIC = neg_inf \/ BIC = NaN).
Proof.
  intros Hs Hfail.
  destruct (SelectorBIC_select_minimum self ltac:(lia))
    as (BIC & best & Hsel & Hin & Hmin).
  exists BIC, best. split; [exact Hsel|]. split; [exact Hin|].
  assert (Hfailed : In (neg_inf, base_model self s)
                      (SelectorBIC_models self)).
  { unfold SelectorBIC_models. apply in_map_iff. exists s. split.
    - unfold score_fails in Hfail. unfold SelectorBIC_candidate.
      destruct (score _ _ _); [discriminate|reflexivity].
    - apply candidate_range_In, Hs. }
  specialize (Hmin _ _ Hfailed). destruct BIC; auto; discriminate.
Qed.

End FailedFits.

(** C10: when the fit raises, [base_model] returns [None] instead of
    raising; so [SelectorConstant.select] returns [None] when the fit for
    [n_constant] fails, [SelectorBIC.select] returns [None] when the fit of
    the first state count fails (its candidate is the winning one), and
    [SelectorDIC.select] returns [None] when every fit of the range fails.
    The value returned is the bare [None]: nothing comes with it. *)
Theorem base_model_failure_returns_None {E : External}
    (self : ModelSelector) :
  (forall s,
     is_Raise (GaussianHMM_fit s (random_state self) (X self)
                 (lengths self)) = true ->
     base_model self s = None) /\
  (is_Raise (GaussianHMM_fit (n_constant self) (random_state self) (X self)
               (lengths self)) = true ->
   SelectorConstant_select self = None) /\
  (min_n_components self <= max_n_components self ->
   is_Raise (GaussianHMM_fit (min_n_components self) (random_state self)
               (X self) (lengths self)) = true ->
   SelectorBIC_select self = Ok None) /\
  (min_n_components self <= max_n_components self ->
   (forall s, min_n_components self <= s <= max_n_components self ->
      is_Raise (GaussianHMM_fit s (random_state self) (X self)
                  (lengths self)) = true) ->
   SelectorDIC_select self = Ok None).
Proof.
  split; [intros s; apply base_model_None|].
  split; [apply base_model_None|]. split.
  - intros Hrange Hfit. unfold SelectorBIC_select.
    rewrite (SelectorBIC_models_cons self Hrange).
    rewrite (SelectorBIC_candidate_fit_failed self _ _
               (base_model_None self _ Hfit)).
    now rewrite py_min_NInf_first.
  - intros Hrange Hfit. unfold SelectorDIC_select.
    rewrite (py_max_constant fst (SelectorDIC_models self) (NInf, None)).
    + reflexivity.
    + apply map_nonempty, candidate_range_nonempty, Hrange.
    + apply SelectorDIC_models_fit_failed. intros s Hs.
      apply base_model_None, Hfit, Hs.
Qed.

Lemma base_model_failure_returns_None_witness :
  base_model (E := Toy.env) Toy.sel_tiny 2 = None /\
  SelectorConstant_select (E := Toy.env) Toy.sel_tiny = None /\
  SelectorBIC_select (E := Toy.env) Toy.sel_tiny = Ok None /\
  SelectorDIC_select (E := Toy.env) Toy.sel_tiny = Ok None.
Proof.
  destruct (base_model_failure_returns_None (E := Toy.env) Toy.sel_tiny)
    as (H1 & H2 & H3 & H4).
  split; [apply H1; reflexivity|].
  split; [apply H2; reflexivity|].
  split; [apply H3; [vm_compute; discriminate|reflexivity]|].
  apply H4; [vm_compute; discriminate|].
  intros s Hs.
  assert (Hcases : s = 2 \/ s = 3) by (change (2 <= s <= 3) in Hs; lia).
  destruct Hcases as [->| ->]; reflexivity.
Defined.

(** ** The sentinel score *)

Section Sentinel.

Context {E : External}.

Lemma SelectorBIC_candidate_failed (self : ModelSelector) (n s : Z) :
  score_fails self s ->
  SelectorBIC_candidate self n s = (neg_inf, base_model self s).
Proof.
  unfold score_fails, SelectorBIC_candidate.
  destruct (score _ _ _); [discriminate|reflexivity].
Qed.

Lemma SelectorDIC_candidate_failed (self : ModelSelector) (s : Z) :
  score_fails self s ->
  SelectorDIC_candidate self s = (neg_inf, base_model self s).
Proof.
  unfold score_fails, SelectorDIC_candidate, DIC_score.
  destruct (score _ _ _); [discriminate|reflexivity].
Qed.

Lemma nth_error_candidates {A : Type} (f : Z -> A) (self : ModelSelector)
    (s : Z) :
  min_n_components self <= s <= max_n_components self ->
  nth_error (map f (candidate_range self))
    (Z.to_nat (s - min_n_components self)) = Some (f s).
Proof.
  intros H. unfold candidate_range.
  rewrite nth_error_map, range_nth_error by lia. reflexivity.
Qed.

(** [max] does not return an item at minus infinity when the list has an
    item above it. *)
Lemma py_max_above_NInf {A : Type} (key : A -> float) (l : list A) :
  (exists x, In x l /\ gtb (key x) neg_inf = true) ->
  exists best, py_max key l = Ok best /\ In best l /\ key best <> neg_inf.
Proof.
  intros (x & Hx & Habove).
  destruct (py_max_spec key l) as (best & Hbest & Hin & Hmax).
  { intros ->. destruct Hx. }
  exists best. split; [exact Hbest|]. split; [exact Hin|].
  intros Hninf. specialize (Hmax x Hx). rewrite Hninf in Hmax.
  congruence.
Qed.






End Sentinel.

(** C1, as the code has it: [SelectorBIC] and [SelectorDIC], and
    [SelectorCV] for a class with one sequence, record a state count of the
    range whose fit or scoring fails with the score minus infinity, paired
    with what [base_model] returned; and the maximizing selectors
    ([SelectorDIC], [SelectorCV]) do not return a candidate at minus
    infinity when a recorded candidate scores above it. *)
Theorem failed_candidate_sentinel {E : External} (self : ModelSelector)
    (s : Z) :
  min_n_components self <= s <= max_n_components self ->
  fit_fails self s \/ score_fails self s ->
  let i := Z.to_nat (s - min_n_components self) in
  nth_error (SelectorBIC_models self) i = Some (neg_inf, base_model self s) /\
  nth_error (SelectorDIC_models self) i = Some (neg_inf, base_model self s) /\
  (length (sequences self) = 1%nat ->
   nth_error (SelectorCV_models self) i
     = Some (neg_inf, base_model self s)) /\
  ((exists d m, In (d, m) (SelectorDIC_models self) /\
                gtb d neg_inf = true) ->
   exists DIC best_model,
     SelectorDIC_select self = Ok best_model /\
     In (DIC, best_model) (SelectorDIC_models self) /\ DIC <> neg_inf) /\
  ((exists c m, In (c, m) (SelectorCV_models self) /\
                gtb c neg_inf = true) ->
   exists mean best_model,
     fst (SelectorCV_select self) = Ok best_model /\
     In (mean, best_model) (SelectorCV_models self) /\ mean <> neg_inf).
Proof.
  intros Hs Hfail i.
  assert (Hscore : score_fails self s).
  { destruct Hfail as [H|H]; [now apply fit_fails_score_fails|exact H]. }
  split; [|split; [|split; [|split]]].
  - unfold SelectorBIC_models, i. rewrite nth_error_candidates by exact Hs.
    now rewrite SelectorBIC_candidate_failed.
  - unfold SelectorDIC_models, i. rewrite nth_error_candidates by exact Hs.
    now rewrite SelectorDIC_candidate_failed.
  - intros H1. rewrite (SelectorCV_models_single self H1). unfold i.
    rewrite (nth_error_candidates
               (fun s => (np_mean [single_result self s], base_model self s)))
      by exact Hs.
    now rewrite (single_result_failed self s Hscore).
  - intros (d & m & Hin & Habove). unfold SelectorDIC_select.
    destruct (py_max_above_NInf fst (SelectorDIC_models self))
      as ([DIC best] & -> & Hbest & Hne).
    { exists (d, m). auto. }
    exists DIC, best. auto.
  - intros (c & m & Hin & Habove). rewrite SelectorCV_select_eq. cbn [fst].
    destruct (py_max_above_NInf fst (SelectorCV_models self))
      as ([mean best] & -> & Hbest & Hne).
    { exists (c, m). auto. }
    exists mean, best. auto.
Qed.

Lemma failed_candidate_sentinel_witness :
  let self := Toy.sel_single in
  nth_error (SelectorBIC_models (E := Toy.env) self) 2
    = Some (neg_inf, None) /\
  nth_error (SelectorDIC_models (E := Toy.env) self) 2
    = Some (neg_inf, None) /\
  nth_error (SelectorCV_models (E := Toy.env) self) 2
    = Some (neg_inf, None) /\
  (exists DIC best_model,
     SelectorDIC_select (E := Toy.env) self = Ok best_model /\
     In (DIC, best_model) (SelectorDIC_models (E := Toy.env) self) /\
     DIC <> neg_inf) /\
  (exists mean best_model,
     fst (SelectorCV_select (E := Toy.env) self) = Ok best_model /\
     In (mean, best_model) (SelectorCV_models (E := Toy.env) self) /\
     mean <> neg_inf).
Proof.
  destruct (failed_candidate_sentinel (E := Toy.env) Toy.sel_single 4)
    as (H1 & H2 & H3 & H4 & H5).
  - vm_compute. split; discriminate.
  - left. reflexivity.
  - split; [exact H1|]. split; [exact H2|].
    split; [apply H3; reflexivity|]. split.
    + apply H4. exists (Fin 4), (Some 2). split; [|reflexivity].
      vm_compute. auto.
    + apply H5. exists (Fin (-6)), (Some 2). split; [|reflexivity].
      vm_compute. auto.
Defined.

(** C1 as stated fails for [SelectorCV] and for a range of failures only.
    For the class of [Toy.sel_short] the fit for three states fails, on the
    whole collection and on every fold, and [SelectorCV] records no
    candidate for it at all, with minus infinity or otherwise.  For the
    class of [Toy.sel_bad] every state count fails to score, and
    [SelectorDIC], which maximizes, returns a candidate recorded at minus
    infinity. *)
Lemma failed_candidate_sentinel_counterexample :
  (fit_fails (E := Toy.env) Toy.sel_short 3 /\
   In 3 (candidate_range Toy.sel_short) /\
   SelectorCV_models (E := Toy.env) Toy.sel_short = []) /\
  (SelectorDIC_models (E := Toy.env) Toy.sel_bad
     = [(neg_inf, Some 2); (neg_inf, Some 3)] /\
   SelectorDIC_select (E := Toy.env) Toy.sel_bad = Ok (Some 2)).
Proof.
  split; [split; [reflexivity|split; [vm_compute; auto|reflexivity]]|].
  split; reflexivity.
Qed.


(** C6, as the code has it: when the class is the only one of the data
    set, the mean of the empty list of other scores is not-a-number and
    nothing raises, so a state count whose fit and scoring succeed is
    recorded with the score not-a-number; minus infinity is recorded only
    when the fit or the scoring of the class itself fails. *)
Theorem SelectorDIC_single_class {E : External} (self : ModelSelector)
    (s : Z) :
  (forall w, In w (keys (words self)) -> w = this_word self) ->
  SelectorDIC_candidate self s =
  match score (base_model self s) (X self) (lengths self) with
  | Ok LL => (NaN, base_model self s)
  | Raise _ => (neg_inf, base_model self s)
  end.
Proof.
  intros Halone. unfold SelectorDIC_candidate, DIC_score.
  destruct (score _ _ _) as [LL|e]; [|reflexivity].
  rewrite (DIC_adv_scores_alone self _ _ [] Halone).
  change (np_mean []) with NaN. now rewrite sub_NaN.
Qed.

Lemma SelectorDIC_single_class_witness :
  SelectorDIC_candidate (E := Toy.env) Toy.sel_one 2 = (NaN, Some 2).
Proof.
  apply (SelectorDIC_single_class (E := Toy.env) Toy.sel_one 2).
  intros w Hw. vm_compute in Hw. destruct Hw as [<-|[]]. reflexivity.
Defined.

(** C6 as stated fails: for the single class of [Toy.sel_one] the fit and
    the scoring for two states succeed, there is no other class, and the
    candidate is recorded with not-a-number, not with minus infinity. *)
Lemma SelectorDIC_single_class_counterexample :
  keys (words Toy.sel_one) = [this_word Toy.sel_one] /\
  SelectorDIC_models (E := Toy.env) Toy.sel_one
    = [(NaN, Some 2); (NaN, Some 3)] /\
  fst (SelectorDIC_candidate (E := Toy.env) Toy.sel_one 2) <> neg_inf.
Proof.
  split; [reflexivity|]. split; [reflexivity|]. discriminate.
Qed.

(** ** Cross-validation *)

(** C7, as the code has it: for a class with at least two sequences the
    [try] encloses the construction of the splitter and the whole loop
    over the folds.  When the splitter raises, no fold is evaluated.  When
    a fold raises, the loop ends there: the folds before it have given
    their scores, the failing fold and the folds after it give none.  In
    both cases the evaluation of the state count returns normally; the
    candidate is recorded with the mean of the scores obtained when there
    is at least one, and is not recorded otherwise. *)
Theorem SelectorCV_fold_failure {E : External} (st : CVState) (s : Z) :
  (2 <= length (sequences (self st)))%nat ->
  (is_Raise (folds_of (self st)) = true ->
   cv_candidate s st = (Ok tt, after_candidate s st) /\
   cv_results (after_candidate s st) = [] /\
   models (after_candidate s st) = models st) /\
  (forall pre f post scores,
     folds_of (self st) = Ok (pre ++ f :: post) ->
     Forall2 (fun fold sc => fold_score (self st) s fold = Ok sc)
       pre scores ->
     is_Raise (fold_score (self st) s f) = true ->
     cv_candidate s st = (Ok tt, after_candidate s st) /\
     cv_results (after_candidate s st) = scores /\
     match scores with
     | [] => models (after_candidate s st) = models st
     | _ :: _ =>
         exists m,
           models (after_candidate s st)
             = models st ++ [(np_mean scores, m)]
     end).
Proof.
  intros Hlen. assert (Hne : length (sequences (self st)) <> 1%nat) by lia.
  split.
  - intros Hsplit. unfold after_candidate.
    rewrite cv_candidate_eq. cbv zeta.
    apply Nat.eqb_neq in Hne. rewrite Hne, cv_folds_eq. cbn [self].
    destruct (folds_of (self st)); [discriminate|]. cbn. auto.
  - intros pre f post scores Hfolds Hpre Hf. unfold after_candidate.
    destruct (cv_candidate_folds s st pre (f :: post) scores Hne Hfolds
                Hpre Hf) as (st' & -> & Hr & _ & Hms).
    cbn [snd]. auto.
Qed.

Lemma SelectorCV_fold_failure_witness :
  (let st := cv_init (E := Toy.env_no_split) Toy.sel_two in
   cv_candidate (E := Toy.env_no_split) 2 st
     = (Ok tt, after_candidate (E := Toy.env_no_split) 2 st) /\
   cv_results (after_candidate (E := Toy.env_no_split) 2 st) = [] /\
   models (after_candidate (E := Toy.env_no_split) 2 st) = []) /\
  (let st := cv_init (E := Toy.env) Toy.sel_bad_middle in
   cv_candidate (E := Toy.env) 2 st
     = (Ok tt, after_candidate (E := Toy.env) 2 st) /\
   cv_results (after_candidate (E := Toy.env) 2 st) = [Fin (-6)] /\
   exists m,
     models (after_candidate (E := Toy.env) 2 st)
       = [(np_mean [Fin (-6)], m)]).
Proof.
  split.
  - refine (proj1 (SelectorCV_fold_failure (E := Toy.env_no_split)
                     (cv_init Toy.sel_two) 2 _) eq_refl).
    vm_compute. lia.
  - refine (proj2 (SelectorCV_fold_failure (E := Toy.env)
                     (cv_init Toy.sel_bad_middle) 2 _)
              [([1; 2], [0])] ([0; 2], [1]) [([0; 1], [2])] [Fin (-6)]
              eq_refl _ eq_refl)%nat.
    + vm_compute. lia.
    + constructor; [reflexivity|constructor].
Defined.

(** C7 as stated fails: the three recordings of [Toy.sel_bad_middle] give
    three folds; for two states the first scores, the second raises, and
    the third would score, but it is not evaluated: the first score is the
    only one the candidate gets. *)
Lemma SelectorCV_fold_failure_counterexample :
  let this := Toy.sel_bad_middle in
  let f0 := ([1; 2], [0])%nat in
  let f1 := ([0; 2], [1])%nat in
  let f2 := ([0; 1], [2])%nat in
  folds_of (E := Toy.env) this = Ok [f0; f1; f2] /\
  fold_score (E := Toy.env) this 2 f0 = Ok (Fin (-6)) /\
  is_Raise (fold_score (E := Toy.env) this 2 f1) = true /\
  fold_score (E := Toy.env) this 2 f2 = Ok (Fin (-4)) /\
  cv_results (after_candidate (E := Toy.env) 2 (cv_init this))
    = [Fin (-6)].
Proof. repeat split; reflexivity. Qed.




(** ** The recognizer *)

Section Recognize.

Context {E : External}.

Lemma dict_set_fresh {V : Type} (d : dict V) (k : string) (v : V) :
  ~ In k (keys d) -> dict_set d k v = d ++ [(k, v)].
Proof.
  induction d as [|[k' v'] r IH]; intros Hk; [reflexivity|].
  simpl in *. destruct (String.eqb_spec k' k) as [->|Hne].
  - exfalso. apply Hk. now left.
  - rewrite IH; [reflexivity|]. intros Hin. apply Hk. now right.
Qed.

(** With distinct classes, every class of the table gets its own entry, in
    the order of the table. *)
Lemma score_words_eq (models : dict (option Model)) (features : matrix)
    (length : list Z) (LL : dict float) :
  NoDup (keys models) ->
  (forall w, In w (keys models) -> ~ In w (keys LL)) ->
  score_words models features length LL =
  LL ++ map (fun wm => (fst wm, word_score (snd wm) features length)) models.
Proof.
  revert LL. induction models as [|[w m] r IH]; intros LL Hnd Hfresh.
  - simpl. now rewrite app_nil_r.
  - simpl in Hnd. inversion Hnd as [|? ? Hw Hr]; subst.
    assert (Hstep : forall v, score_words r features length (dict_set LL w v)
              = LL ++ (w, v)
                  :: map (fun wm =>
                            (fst wm, word_score (snd wm) features length)) r).
    { intros v. rewrite dict_set_fresh by (apply Hfresh; now left).
      rewrite IH; [now rewrite <- app_assoc|exact Hr|].
      intros w' Hw'. unfold keys. rewrite map_app, in_app_iff.
      intros [Hin|[<-|[]]].
      - apply (Hfresh w'); [now right|exact Hin].
      - exact (Hw Hw'). }
    cbn [score_words map fst snd]. unfold word_score.
    destruct (score m features length); apply Hstep.
Qed.

Lemma dict_set_nonempty {V : Type} (d : dict V) (k : string) (v : V) :
  dict_set d k v <> [].
Proof.
  destruct d as [|[k' v'] r]; simpl; [discriminate|].
  destruct (String.eqb k' k); discriminate.
Qed.

Lemma score_words_nonempty (models : dict (option Model))
    (features : matrix) (length : list Z) (LL : dict float) :
  models <> [] \/ LL <> [] ->
  score_words models features length LL <> [].
Proof.
  revert LL. induction models as [|[w m] r IH]; intros LL H.
  - simpl. destruct H as [H|H]; [congruence|exact H].
  - simpl. destruct (score m features length); apply IH; right;
      apply dict_set_nonempty.
Qed.

(** The guess for a mapping with an entry: a key no other entry of which
    has a strictly greater value. *)
Lemma best_guess_spec (LL : dict float) :
  LL <> [] ->
  exists guess v,
    best_guess LL = Ok guess /\ In (guess, v) LL /\
    forall w v', In (w, v') LL -> gtb v' v = false.
Proof.
  intros Hne. unfold best_guess.
  destruct (py_max_spec snd LL Hne) as ([guess v] & -> & Hin & Hmax).
  exists guess, v. split; [reflexivity|]. split; [exact Hin|].
  intros w v' Hw. exact (Hmax (w, v') Hw).
Qed.

Lemma recognize_loop_spec (models : dict (option Model))
    (test_set : SinglesData) (idxs : list nat)
    (probabilities : list (dict float)) (guesses : list string) :
  models <> [] ->
  (forall i, In i idxs -> (i < length test_set)%nat) ->
  exists P G,
    recognize_loop models test_set idxs probabilities guesses
      = Ok (probabilities ++ P, guesses ++ G) /\
    length P = length idxs /\ length G = length idxs /\
    forall k i, nth_error idxs k = Some i ->
      exists xl LL guess,
        nth_error test_set i = Some xl /\
        nth_error P k = Some LL /\ nth_error G k = Some guess /\
        LL = score_words models (fst xl) (snd xl) [] /\
        best_guess LL = Ok guess.
Proof.
  intros Hne. revert probabilities guesses.
  induction idxs as [|i r IH]; intros probabilities guesses Hidx.
  - exists [], []. rewrite !app_nil_r. repeat split.
    intros [|k] j Hk; discriminate.
  - cbn [recognize_loop]. unfold get_item_Xlengths.
    destruct (nth_error test_set i) as [[features length]|] eqn:Hi.
    2:{ apply nth_error_None in Hi.
        specialize (Hidx i (or_introl eq_refl)). lia. }
    cbv zeta.
    destruct (best_guess_spec (score_words models features length []))
      as (guess & v & Hg & _).
    { apply score_words_nonempty. now left. }
    rewrite Hg.
    destruct (IH (probabilities ++ [score_words models features length []])
                (guesses ++ [guess]))
      as (P & G & -> & HP & HG & Hnth).
    { intros j Hj. apply Hidx. now right. }
    exists (score_words models features length [] :: P), (guess :: G).
    rewrite <- !app_assoc. split; [reflexivity|].
    split; [simpl; congruence|]. split; [simpl; congruence|].
    intros [|k] j Hk.
    + inversion Hk; subst j.
      exists (features, length), (score_words models features length []),
        guess.
      repeat split; auto.
    + apply Hnth. exact Hk.
Qed.

End Recognize.

(** C2, as the code has it: for a table with at least one class, with its
    [M] classes distinct as the keys of a dict are, and a test set of [T]
    items, [recognize] returns [T] mappings and [T] guesses in the order of
    the test items; the mapping of an item has one entry per class of the
    table, in the order of the table, whose value is the score of the model
    of the class on the item, or minus infinity when that scoring raises;
    the guess of an item is a key of its mapping, and no entry of the
    mapping has a value strictly greater than that of the guess. *)
Theorem recognize_shape {E : External} (models : dict (option Model))
    (test_set : SinglesData) :
  models <> [] ->
  NoDup (keys models) ->
  exists probabilities guesses,
    recognize models test_set = Ok (probabilities, guesses) /\
    length probabilities = length test_set /\
    length guesses = length test_set /\
    forall i features lengths,
      nth_error test_set i = Some (features, lengths) ->
      exists LL guess v,
        nth_error probabilities i = Some LL /\
        nth_error guesses i = Some guess /\
        LL = map (fun wm => (fst wm, word_score (snd wm) features lengths))
               models /\
        length LL = length models /\
        keys LL = keys models /\
        In (guess, v) LL /\
        forall w v', In (w, v') LL -> gtb v' v = false.
Proof.
  intros Hne Hnd. unfold recognize, get_all_Xlengths.
  destruct (recognize_loop_spec models test_set (seq 0 (length test_set))
              [] [] Hne) as (P & G & -> & HP & HG & Hnth).
  { intros i Hi. apply in_seq in Hi. lia. }
  rewrite length_seq in HP, HG.
  exists P, G. split; [reflexivity|]. split; [exact HP|].
  split; [exact HG|].
  intros i features lengths Hi.
  assert (Hlt : (i < length test_set)%nat).
  { apply nth_error_Some. congruence. }
  destruct (Hnth i i) as (xl & LL & guess & Hxl & HLL & Hguess & Heq & Hbest).
  { rewrite nth_error_seq.
    destruct (Nat.ltb_spec i (length test_set)); [reflexivity|lia]. }
  rewrite Hi in Hxl. inversion Hxl; subst xl. cbn [fst snd] in Heq.
  rewrite score_words_eq in Heq by (auto; intros w _ []).
  cbn [app] in Heq.
  destruct (best_guess_spec LL) as (guess' & v & Hbest' & Hin & Hmax).
  { rewrite Heq. destruct models; [congruence|discriminate]. }
  rewrite Hbest in Hbest'. inversion Hbest'; subst guess'.
  exists LL, guess, v. split; [exact HLL|]. split; [exact Hguess|].
  split; [exact Heq|]. split; [rewrite Heq; apply length_map|].
  split; [|split; [exact Hin|exact Hmax]].
  rewrite Heq. unfold keys. rewrite map_map. reflexivity.
Qed.

Lemma recognize_shape_witness :
  exists probabilities guesses,
    recognize (E := Toy.env) Toy.table Toy.test_set
      = Ok (probabilities, guesses) /\
    length probabilities = 2%nat /\
    length guesses = 2%nat /\
    forall i features lengths,
      nth_error Toy.test_set i = Some (features, lengths) ->
      exists LL guess v,
        nth_error probabilities i = Some LL /\
        nth_error guesses i = Some guess /\
        LL = map (fun wm =>
                    (fst wm,
                     word_score (E := Toy.env) (snd wm) features lengths))
               Toy.table /\
        length LL = 3%nat /\
        keys LL = ["BOOK"; "CHAIR"; "NONE"]%string /\
        In (guess, v) LL /\
        forall w v', In (w, v') LL -> gtb v' v = false.
Proof.
  apply (recognize_shape (E := Toy.env) Toy.table Toy.test_set).
  - discriminate.
  - repeat constructor; simpl; intuition discriminate.
Defined.

(** C2 as stated fails for the empty table: with no class and a test item
    there is no key to guess, and [recognize] raises the [ValueError] of
    [max] on an empty mapping. *)
Lemma recognize_empty_table_counterexample :
  recognize (E := Toy.env) [] Toy.test_set = Raise ValueError.
Proof. reflexivity. Qed.

(** * Further properties of the selectors and of the recognizer *)

(** ** Ties: the first of the best items wins *)

Lemma ltb_below_trans (f b y : float) :
  ltb f b = true -> ltb y b = false -> y <> NaN -> ltb f y = true.
Proof.
  destruct f, b, y; simpl; try congruence; intros Hfb Hyb _.
  apply Qltb_lt in Hfb. apply Qltb_lt.
  destruct (Qltb q1 q0) eqn:Hc; [discriminate|].
  assert (Hle : (q0 <= q1)%Q).
  { apply Qnot_lt_le. intros Hlt. apply Qltb_lt in Hlt. congruence. }
  exact (Qlt_le_trans _ _ _ Hfb Hle).
Qed.

Lemma gtb_above_trans (f b y : float) :
  gtb f b = true -> gtb y b = false -> y <> NaN -> gtb f y = true.
Proof.
  unfold gtb. destruct f, b, y; simpl; try congruence; intros Hfb Hyb _.
  apply Qltb_lt in Hfb. apply Qltb_lt.
  destruct (Qltb q0 q1) eqn:Hc; [discriminate|].
  assert (Hle : (q1 <= q0)%Q).
  { apply Qnot_lt_le. intros Hlt. apply Qltb_lt in Hlt. congruence. }
  exact (Qle_lt_trans _ _ _ Hle Hfb).
Qed.

Section FirstBest.

Context {A : Type} (better : float -> float -> bool) (key : A -> float).

Hypothesis better_trans :
  forall a b c, better a b = true -> better b c = true -> better a c = true.
Hypothesis better_skip :
  forall f b y,
    better f b = true -> better y b = false -> y <> NaN ->
    better f y = true.

(** The result sits at a position before which every item with a key
    other than not-a-number is strictly worse. *)
Lemma best_from_first (l : list A) (start : A) :
  exists i,
    nth_error (start :: l) i = Some (best_from better key start l) /\
    (forall j y, (j < i)%nat -> nth_error (start :: l) j = Some y ->
       key y <> NaN ->
       better (key (best_from better key start l)) (key y) = true) /\
    ((0 < i)%nat ->
     better (key (best_from better key start l)) (key start) = true).
Proof.
  revert start. induction l as [|x r IH]; intros start.
  - exists 0%nat. split; [reflexivity|]. split; intros; lia.
  - cbn [best_from].
    destruct (IH (if better (key x) (key start) then x else start))
      as (i' & Hnth & Hbefore & Hstart).
    set (res := best_from better key
                  (if better (key x) (key start) then x else start) r) in *.
    destruct (better (key x) (key start)) eqn:Hx.
    + (* x replaces the start *)
      assert (Hrs : (0 < i')%nat \/ res = x).
      { destruct i' as [|k]; [right|left; lia].
        cbn in Hnth. now inversion Hnth. }
      assert (Hbs : better (key res) (key start) = true).
      { destruct Hrs as [Hpos| ->]; [|exact Hx].
        exact (better_trans _ _ _ (Hstart Hpos) Hx). }
      exists (S i'). split; [exact Hnth|]. split; [|intros _; exact Hbs].
      intros j y Hj Hy Hnan. destruct j as [|j'].
      * cbn in Hy. inversion Hy; subst y. exact Hbs.
      * apply (Hbefore j' y); [lia|exact Hy|exact Hnan].
    + (* the start stays *)
      destruct i' as [|k].
      * exists 0%nat. cbn in Hnth. split; [exact Hnth|].
        split; intros; lia.
      * exists (S (S k)). cbn in Hnth. split; [exact Hnth|].
        assert (Hbs := Hstart ltac:(lia)).
        split; [|intros _; exact Hbs].
        intros j y Hj Hy Hnan. destruct j as [|[|j']].
        -- cbn in Hy. inversion Hy; subst y. exact Hbs.
        -- cbn in Hy. inversion Hy; subst y.
           exact (better_skip _ _ _ Hbs Hx Hnan).
        -- apply (Hbefore (S j') y); [lia|exact Hy|exact Hnan].
Qed.

End FirstBest.

(** [min] and [max] on a list that is not empty: the position of the
    result, no item strictly better anywhere, and every comparable item
    before it strictly worse. *)
Lemma py_min_first {A : Type} (key : A -> float) (l : list A) :
  l <> [] ->
  exists i best,
    py_min key l = Ok best /\ nth_error l i = Some best /\
    (forall x, In x l -> ltb (key x) (key best) = false) /\
    (forall j y, (j < i)%nat -> nth_error l j = Some y -> key y <> NaN ->
       ltb (key best) (key y) = true).
Proof.
  destruct l as [|a r]; [congruence|]. intros _.
  destruct (best_from_first ltb key ltb_trans ltb_below_trans r a)
    as (i & Hnth & Hbefore & _).
  exists i, (best_from ltb key a r). split; [reflexivity|].
  split; [exact Hnth|]. split; [|exact Hbefore].
  intros x Hx. exact (best_from_optimal ltb key ltb_irrefl ltb_trans r a x Hx).
Qed.

Lemma py_max_first {A : Type} (key : A -> float) (l : list A) :
  l <> [] ->
  exists i best,
    py_max key l = Ok best /\ nth_error l i = Some best /\
    (forall x, In x l -> gtb (key x) (key best) = false) /\
    (forall j y, (j < i)%nat -> nth_error l j = Some y -> key y <> NaN ->
       gtb (key best) (key y) = true).
Proof.
  destruct l as [|a r]; [congruence|]. intros _.
  destruct (best_from_first gtb key gtb_trans gtb_above_trans r a)
    as (i & Hnth & Hbefore & _).
  exists i, (best_from gtb key a r). split; [reflexivity|].
  split; [exact Hnth|]. split; [|exact Hbefore].
  intros x Hx. exact (best_from_optimal gtb key gtb_irrefl gtb_trans r a x Hx).
Qed.

(** The extremum of a list built over the candidate range, in terms of the
    state counts. *)
Lemma nth_error_candidates_inv {A : Type} (f : Z -> A)
    (self : ModelSelector) (i : nat) (c : A) :
  nth_error (map f (candidate_range self)) i = Some c ->
  let s := min_n_components self + Z.of_nat i in
  min_n_components self <= s <= max_n_components self /\ c = f s.
Proof.
  intros Hnth s.
  assert (Hlt : (i < length (map f (candidate_range self)))%nat).
  { apply nth_error_Some. congruence. }
  unfold candidate_range in Hlt. rewrite length_map, range_length in Hlt.
  assert (Hs : min_n_components self <= s <= max_n_components self)
    by (unfold s; lia).
  split; [exact Hs|].
  assert (H := nth_error_candidates f self s Hs).
  replace (Z.to_nat (s - min_n_components self)) with i in H
    by (unfold s; lia).
  congruence.
Qed.

(** ** [SelectorBIC] and [SelectorDIC]: what [select] returns *)

Section SelectExtremum.

Context {E : External}.

Lemma SelectorBIC_candidate_snd (self : ModelSelector) (n s : Z) :
  snd (SelectorBIC_candidate self n s) = base_model self s.
Proof.
  unfold SelectorBIC_candidate. destruct (score _ _ _); reflexivity.
Qed.

Lemma SelectorDIC_candidate_snd (self : ModelSelector) (s : Z) :
  snd (SelectorDIC_candidate self s) = base_model self s.
Proof.
  unfold SelectorDIC_candidate. destruct (DIC_score _ _); reflexivity.
Qed.

(** The extremum of the candidates [f s] over the range, by state count. *)
Lemma py_min_candidates (f : Z -> float * option Model)
    (self : ModelSelector) :
  min_n_components self <= max_n_components self ->
  exists s,
    min_n_components self <= s <= max_n_components self /\
    py_min fst (map f (candidate_range self)) = Ok (f s) /\
    (forall s', min_n_components self <= s' <= max_n_components self ->
       ltb (fst (f s')) (fst (f s)) = false) /\
    (forall s', min_n_components self <= s' < s -> fst (f s') <> NaN ->
       ltb (fst (f s)) (fst (f s')) = true).
Proof.
  intros Hr.
  destruct (py_min_first fst (map f (candidate_range self)))
    as (i & best & Hmin & Hnth & Hall & Hbefore).
  { apply map_nonempty, candidate_range_nonempty, Hr. }
  destruct (nth_error_candidates_inv f self i best Hnth) as (Hs & ->).
  set (s := min_n_components self + Z.of_nat i) in *.
  exists s. split; [exact Hs|]. split; [exact Hmin|]. split.
  - intros s' Hs'. apply Hall, in_map, candidate_range_In, Hs'.
  - intros s' Hs' Hnan.
    apply (Hbefore (Z.to_nat (s' - min_n_components self)) (f s')).
    + unfold s in Hs'. lia.
    + apply nth_error_candidates. lia.
    + exact Hnan.
Qed.

Lemma py_max_candidates (f : Z -> float * option Model)
    (self : ModelSelector) :
  min_n_components self <= max_n_components self ->
  exists s,
    min_n_components self <= s <= max_n_components self /\
    py_max fst (map f (candidate_range self)) = Ok (f s) /\
    (forall s', min_n_components self <= s' <= max_n_components self ->
       gtb (fst (f s')) (fst (f s)) = false) /\
    (forall s', min_n_components self <= s' < s -> fst (f s') <> NaN ->
       gtb (fst (f s)) (fst (f s')) = true).
Proof.
  intros Hr.
  destruct (py_max_first fst (map f (candidate_range self)))
    as (i & best & Hmax & Hnth & Hall & Hbefore).
  { apply map_nonempty, candidate_range_nonempty, Hr. }
  destruct (nth_error_candidates_inv f self i best Hnth) as (Hs & ->).
  set (s := min_n_components self + Z.of_nat i) in *.
  exists s. split; [exact Hs|]. split; [exact Hmax|]. split.
  - intros s' Hs'. apply Hall, in_map, candidate_range_In, Hs'.
  - intros s' Hs' Hnan.
    apply (Hbefore (Z.to_nat (s' - min_n_components self)) (f s')).
    + unfold s in Hs'. lia.
    + apply nth_error_candidates. lia.
    + exact Hnan.
Qed.

Lemma SelectorBIC_select_by_state (self : ModelSelector) :
  min_n_components self <= max_n_components self ->
  exists s,
    min_n_components self <= s <= max_n_components self /\
    SelectorBIC_select self = Ok (base_model self s) /\
    (forall s', min_n_components self <= s' <= max_n_components self ->
       ltb (fst (SelectorBIC_candidate self (sum (lengths self)) s'))
         (fst (SelectorBIC_candidate self (sum (lengths self)) s)) = false)
    /\
    (forall s', min_n_components self <= s' < s ->
       fst (SelectorBIC_candidate self (sum (lengths self)) s') <> NaN ->
       ltb (fst (SelectorBIC_candidate self (sum (lengths self)) s))
         (fst (SelectorBIC_candidate self (sum (lengths self)) s')) = true).
Proof.
  intros Hr.
  destruct (py_min_candidates
              (SelectorBIC_candidate self (sum (lengths self))) self Hr)
    as (s & Hs & Hmin & Hall & Hbefore).
  exists s. split; [exact Hs|]. split; [|split; assumption].
  unfold SelectorBIC_select, SelectorBIC_models. rewrite Hmin.
  rewrite <- (SelectorBIC_candidate_snd self (sum (lengths self)) s).
  destruct (SelectorBIC_candidate _ _ s). reflexivity.
Qed.

(** The loop over the other classes, when each of them is scored. *)
Lemma DIC_adv_scores_Ok (self : ModelSelector) (hmm_model : option Model)
    (ws : list string) (acc advs : list float) :
  Forall2 (fun w a => adv_score self hmm_model w = Ok a)
    (filter (fun w => negb (String.eqb w (this_word self))) ws) advs ->
  DIC_adv_scores self hmm_model ws acc = Ok (acc ++ advs).
Proof.
  revert acc advs. induction ws as [|w r IH]; intros acc advs H.
  - inversion H. simpl. now rewrite app_nil_r.
  - cbn [filter] in H. cbn [DIC_adv_scores].
    destruct (negb (String.eqb w (this_word self))).
    + inversion H as [|? a ? advs' Hw Hr]; subst.
      unfold adv_score in Hw.
      destruct (subscript (hwords self) w) as [[aX aL]|e]; [|discriminate].
      rewrite Hw. rewrite (IH _ advs' Hr). now rewrite <- app_assoc.
    + apply IH, H.
Qed.

(** The loop over the other classes, when one of them cannot be scored. *)
Lemma DIC_adv_scores_Raise (self : ModelSelector)
    (hmm_model : option Model) (ws : list string) (acc : list float)
    (w : string) :
  In w ws -> w <> this_word self ->
  is_Raise (adv_score self hmm_model w) = true ->
  is_Raise (DIC_adv_scores self hmm_model ws acc) = true.
Proof.
  intros Hin Hne Hfail. revert acc.
  induction ws as [|w' r IH]; intros acc; [destruct Hin|].
  cbn [DIC_adv_scores].
  destruct (String.eqb_spec w' (this_word self)) as [Heq|Hneq]; cbn [negb].
  - destruct Hin as [->|Hin]; [congruence|]. apply IH, Hin.
  - destruct (subscript (hwords self) w') as [[aX aL]|e] eqn:Hsub;
      [|reflexivity].
    destruct (score hmm_model aX aL) as [a|e] eqn:Hsc; [|reflexivity].
    destruct Hin as [->|Hin]; [|apply IH, Hin].
    unfold adv_score in Hfail. rewrite Hsub, Hsc in Hfail. discriminate.
Qed.

End SelectExtremum.

(** X1: over a range that is not empty, [SelectorBIC.select] returns the
    model [base_model] gave for a state count whose BIC score no state
    count of the range is strictly below, and which is the first such
    one: every earlier state count with a score other than not-a-number
    has a strictly greater score. *)
Theorem SelectorBIC_select_first_minimum {E : External}
    (self : ModelSelector) :
  min_n_components self <= max_n_components self ->
  let BIC s := fst (SelectorBIC_candidate self (sum (lengths self)) s) in
  exists s,
    min_n_components self <= s <= max_n_components self /\
    SelectorBIC_select self = Ok (base_model self s) /\
    (forall s', min_n_components self <= s' <= max_n_components self ->
       ltb (BIC s') (BIC s) = false) /\
    (forall s', min_n_components self <= s' < s -> BIC s' <> NaN ->
       ltb (BIC s) (BIC s') = true).
Proof.
  intros Hr BIC. exact (SelectorBIC_select_by_state self Hr).
Qed.

Lemma SelectorBIC_select_first_minimum_witness :
  exists s,
    2 <= s <= 4 /\
    SelectorBIC_select (E := Toy.env) Toy.sel_two
      = Ok (base_model (E := Toy.env) Toy.sel_two s).
Proof.
  destruct (SelectorBIC_select_first_minimum (E := Toy.env) Toy.sel_two)
    as (s & Hs & Hsel & _).
  - vm_compute. discriminate.
  - exists s. split; [exact Hs|exact Hsel].
Defined.

(** X2: over a range that is not empty, [SelectorDIC.select] returns the
    model [base_model] gave for a state count whose DIC score no state
    count of the range is strictly above, and which is the first such
    one. *)
Theorem SelectorDIC_select_first_maximum {E : External}
    (self : ModelSelector) :
  min_n_components self <= max_n_components self ->
  let DIC s := fst (SelectorDIC_candidate self s) in
  exists s,
    min_n_components self <= s <= max_n_components self /\
    SelectorDIC_select self = Ok (base_model self s) /\
    (forall s', min_n_components self <= s' <= max_n_components self ->
       gtb (DIC s') (DIC s) = false) /\
    (forall s', min_n_components self <= s' < s -> DIC s' <> NaN ->
       gtb (DIC s) (DIC s') = true).
Proof.
  intros Hr DIC.
  destruct (py_max_candidates (SelectorDIC_candidate self) self Hr)
    as (s & Hs & Hmax & Hall & Hbefore).
  exists s. split; [exact Hs|]. split; [|split; assumption].
  unfold SelectorDIC_select, SelectorDIC_models. rewrite Hmax.
  rewrite <- (SelectorDIC_candidate_snd self s).
  destruct (SelectorDIC_candidate self s). reflexivity.
Qed.

Lemma SelectorDIC_select_first_maximum_witness :
  exists s,
    2 <= s <= 4 /\
    SelectorDIC_select (E := Toy.env) Toy.sel_two
      = Ok (base_model (E := Toy.env) Toy.sel_two s).
Proof.
  destruct (SelectorDIC_select_first_maximum (E := Toy.env) Toy.sel_two)
    as (s & Hs & Hsel & _).
  - vm_compute. discriminate.
  - exists s. split; [exact Hs|exact Hsel].
Defined.

(** X3: [SelectorBIC.select] and [SelectorDIC.select] raise exactly when
    the range is empty ([max_n_components < min_n_components]), and what
    they raise then is the [ValueError] of [min] or [max] on an empty
    list; [SelectorCV.select] raises it on an empty range too. *)
Theorem select_empty_range {E : External} (self : ModelSelector) :
  (is_Raise (SelectorBIC_select self) = true <->
   max_n_components self < min_n_components self) /\
  (is_Raise (SelectorDIC_select self) = true <->
   max_n_components self < min_n_components self) /\
  (max_n_components self < min_n_components self ->
   SelectorBIC_select self = Raise ValueError /\
   SelectorDIC_select self = Raise ValueError /\
   fst (SelectorCV_select self) = Raise ValueError).
Proof.
  assert (Hempty : max_n_components self < min_n_components self ->
            SelectorBIC_select self = Raise ValueError /\
            SelectorDIC_select self = Raise ValueError /\
            fst (SelectorCV_select self) = Raise ValueError).
  { intros Hr. assert (He := candidate_range_empty self Hr).
    split; [|split].
    - unfold SelectorBIC_select, SelectorBIC_models. now rewrite He.
    - unfold SelectorDIC_select, SelectorDIC_models. now rewrite He.
    - rewrite SelectorCV_select_eq. cbn [fst].
      unfold SelectorCV_models. now rewrite He. }
  split; [|split; [|exact Hempty]].
  - split.
    + intros Hraise.
      destruct (Z.lt_ge_cases (max_n_components self)
                  (min_n_components self)) as [H|H]; [exact H|].
      destruct (SelectorBIC_select_minimum self H) as (b & m & Hsel & _).
      rewrite Hsel in Hraise. discriminate.
    + intros Hr. now rewrite (proj1 (Hempty Hr)).
  - split.
    + intros Hraise.
      destruct (Z.lt_ge_cases (max_n_components self)
                  (min_n_components self)) as [H|H]; [exact H|].
      destruct (SelectorDIC_select_maximum self H) as (b & m & Hsel & _).
      rewrite Hsel in Hraise. discriminate.
    + intros Hr. now rewrite (proj1 (proj2 (Hempty Hr))).
Qed.

Lemma select_empty_range_witness :
  SelectorBIC_select (E := Toy.env) Toy.sel_empty_range = Raise ValueError /\
  SelectorDIC_select (E := Toy.env) Toy.sel_empty_range = Raise ValueError /\
  fst (SelectorCV_select (E := Toy.env) Toy.sel_empty_range)
    = Raise ValueError.
Proof.
  apply (proj2 (proj2 (select_empty_range (E := Toy.env)
                         Toy.sel_empty_range))).
  vm_compute. reflexivity.
Defined.

(** X4: when a state count of the range fails and every earlier state
    count is recorded above minus infinity, [SelectorBIC.select] returns
    what [base_model] gave for the failed state count: [min] picks the
    sentinel, whatever the scores of the state counts that succeeded. *)
Theorem SelectorBIC_returns_first_failure {E : External}
    (self : ModelSelector) (s : Z) :
  min_n_components self <= s <= max_n_components self ->
  fit_fails self s \/ score_fails self s ->
  (forall s', min_n_components self <= s' < s ->
     gtb (fst (SelectorBIC_candidate self (sum (lengths self)) s')) neg_inf
       = true) ->
  SelectorBIC_select self = Ok (base_model self s).
Proof.
  intros Hs Hfail Hearlier.
  assert (Hscore : score_fails self s).
  { destruct Hfail as [H|H]; [now apply fit_fails_score_fails|exact H]. }
  assert (Hcand := SelectorBIC_candidate_failed self (sum (lengths self)) s
                     Hscore).
  destruct (SelectorBIC_select_by_state self ltac:(lia))
    as (s0 & Hs0 & Hsel & Hall & Hbefore).
  destruct (Z.lt_trichotomy s0 s) as [Hlt|[->|Hgt]].
  - specialize (Hall s Hs). rewrite Hcand in Hall. cbn [fst] in Hall.
    specialize (Hearlier s0 ltac:(lia)). unfold gtb in Hearlier.
    congruence.
  - exact Hsel.
  - specialize (Hbefore s ltac:(lia)). rewrite Hcand in Hbefore.
    cbn [fst] in Hbefore. rewrite ltb_NInf_r in Hbefore.
    specialize (Hbefore ltac:(discriminate)). discriminate.
Qed.

Lemma SelectorBIC_returns_first_failure_witness :
  SelectorBIC_models (E := Toy.env) Toy.sel_single
    = [(Fin 27, Some 2); (Fin 44, Some 3); (neg_inf, None)] /\
  SelectorBIC_select (E := Toy.env) Toy.sel_single = Ok None.
Proof.
  split; [reflexivity|].
  apply (SelectorBIC_returns_first_failure (E := Toy.env) Toy.sel_single 4).
  - vm_compute. split; discriminate.
  - left. reflexivity.
  - intros s' Hs'.
    assert (Hcases : s' = 2 \/ s' = 3) by (change (2 <= s' < 4) in Hs'; lia).
    destruct Hcases as [->| ->]; reflexivity.
Defined.

(** X5: the DIC score.  When the fit and the scoring of the class succeed
    and the model is scored on the stored data of every other class of
    [self.words], the candidate is recorded with the log-likelihood of the
    class minus the mean of the scores on the other classes, taken in the
    order of [self.words], paired with the fitted model. *)
Theorem SelectorDIC_formula {E : External} (self : ModelSelector) (s : Z)
    (m : Model) (LL : float) (adv_scores : list float) :
  base_model self s = Some m ->
  hmm_score m (X self) (lengths self) = Ok LL ->
  Forall2 (fun word a => adv_score self (Some m) word = Ok a)
    (other_words self) adv_scores ->
  SelectorDIC_candidate self s = (sub LL (np_mean adv_scores), Some m).
Proof.
  intros Hfit Hscore Hadv. unfold SelectorDIC_candidate, DIC_score.
  rewrite Hfit. cbn [score]. rewrite Hscore.
  now rewrite (DIC_adv_scores_Ok self (Some m) _ [] adv_scores Hadv).
Qed.

Lemma SelectorDIC_formula_witness :
  SelectorDIC_candidate (E := Toy.env) Toy.sel_two 2
    = (sub (Fin (-12)) (np_mean [Fin (-10)]), Some 2).
Proof.
  apply (SelectorDIC_formula (E := Toy.env) Toy.sel_two 2 2 (Fin (-12))
           [Fin (-10)] eq_refl eq_refl).
  constructor; [reflexivity|constructor].
Defined.

(** X6: when the stored data of another class is missing from
    [self.hwords] or cannot be scored by the model of a state count, that
    state count is recorded with minus infinity, paired with what
    [base_model] gave, even when the fit and the scoring of the class
    itself succeeded. *)
Theorem SelectorDIC_other_class_failure {E : External}
    (self : ModelSelector) (s : Z) (word : string) :
  In word (keys (words self)) ->
  word <> this_word self ->
  is_Raise (adv_score self (base_model self s) word) = true ->
  SelectorDIC_candidate self s = (neg_inf, base_model self s).
Proof.
  intros Hin Hne Hfail. unfold SelectorDIC_candidate, DIC_score.
  destruct (score (base_model self s) (X self) (lengths self));
    [|reflexivity].
  assert (H := DIC_adv_scores_Raise self (base_model self s)
                 (keys (words self)) [] word Hin Hne Hfail).
  destruct (DIC_adv_scores _ _ _ _); [discriminate|reflexivity].
Qed.

Lemma SelectorDIC_other_class_failure_witness :
  score (E := Toy.env) (Some 2) (X Toy.sel_bad_other)
    (lengths Toy.sel_bad_other) = Ok (Fin (-12)) /\
  SelectorDIC_candidate (E := Toy.env) Toy.sel_bad_other 2
    = (neg_inf, Some 2).
Proof.
  split; [reflexivity|].
  apply (SelectorDIC_other_class_failure (E := Toy.env) Toy.sel_bad_other 2
           "CHAIR").
  - vm_compute. auto.
  - discriminate.
  - reflexivity.
Defined.

(** ** [SelectorCV]: the folds, the splitter and the errors *)

Section CVExtras.

Context {E : External}.

(** A fold that scores, in full: what is stored, bound and appended. *)
Lemma cv_fold_Ok_exact (s : Z) (fold : list nat * list nat) (st : CVState)
    (sc : float) :
  fold_score (self st) s fold = Ok sc ->
  exists X_train train_len m,
    combine_sequences (fst fold) (sequences (self st))
      = Ok (X_train, train_len) /\
    GaussianHMM_fit s (random_state (self st)) X_train train_len = Ok m /\
    cv_fold s fold st =
    (Ok tt,
     {| self := set_lengths (set_X (self st) X_train) train_len;
        hmm_model := Some (Some m);
        cv_results := cv_results st ++ [sc];
        models := models st |}).
Proof.
  unfold fold_score. destruct fold as [tr te]. cbn [fst snd].
  unfold cv_fold, bind, gets, lift, assign_X, assign_lengths,
    assign_hmm_model, read_hmm_model, cv_results_append, modify.
  cbn [self hmm_model cv_results models].
  destruct (combine_sequences tr _) as [[Xtr ltr]|e]; [|discriminate].
  destruct (combine_sequences te _) as [[Xte lte]|e]; [|discriminate].
  unfold base_model. cbn [random_state X lengths set_X set_lengths].
  destruct (GaussianHMM_fit s _ Xtr ltr) as [m|e] eqn:Hfit; [|discriminate].
  cbn [score]. intros ->. exists Xtr, ltr, m.
  split; [reflexivity|]. split; [exact Hfit|]. reflexivity.
Qed.

(** The evaluation of a state count when the splitter raises. *)
Lemma cv_candidate_no_split (s : Z) (st : CVState) :
  length (sequences (self st)) <> 1%nat ->
  is_Raise (folds_of (self st)) = true ->
  cv_candidate s st =
  (Ok tt,
   {| self := self st; hmm_model := hmm_model st; cv_results := [];
      models := models st |}).
Proof.
  intros Hlen Hsplit. rewrite cv_candidate_eq. cbv zeta.
  apply Nat.eqb_neq in Hlen. rewrite Hlen, cv_folds_eq. cbn [self].
  destruct (folds_of (self st)); [discriminate|]. reflexivity.
Qed.

Lemma for_each_candidates_no_split (rng : list Z) (st : CVState) :
  length (sequences (self st)) <> 1%nat ->
  is_Raise (folds_of (self st)) = true ->
  exists st',
    for_each rng cv_candidate st = (Ok tt, st') /\
    self st' = self st /\ models st' = models st.
Proof.
  revert st. induction rng as [|s r IH]; intros st Hlen Hsplit.
  - exists st. auto.
  - rewrite for_each_cons, (cv_candidate_no_split s st Hlen Hsplit).
    destruct (IH {| self := self st; hmm_model := hmm_model st;
                    cv_results := []; models := models st |} Hlen Hsplit)
      as (st' & -> & Hs & Hms).
    exists st'. auto.
Qed.





End CVExtras.

(** X7: for a class with at least two sequences, when every fold of a
    state count scores, the state count gets the scores of all the folds,
    and it is recorded with their mean, paired with the model fitted on
    the train part of the last fold: not with a model fitted on the whole
    collection of the class.  That train part is what [self.X] and
    [self.lengths] hold afterwards. *)
Theorem SelectorCV_all_folds {E : External} (st : CVState) (s : Z)
    (pre : list (list nat * list nat)) (last : list nat * list nat)
    (scores : list float) (last_score : float) :
  (2 <= length (sequences (self st)))%nat ->
  folds_of (self st) = Ok (pre ++ [last]) ->
  Forall2 (fun fold sc => fold_score (self st) s fold = Ok sc) pre scores ->
  fold_score (self st) s last = Ok last_score ->
  exists X_train train_len m,
    combine_sequences (fst last) (sequences (self st))
      = Ok (X_train, train_len) /\
    GaussianHMM_fit s (random_state (self st)) X_train train_len = Ok m /\
    cv_candidate s st = (Ok tt, after_candidate s st) /\
    cv_results (after_candidate s st) = scores ++ [last_score] /\
    models (after_candidate s st)
      = models st ++ [(np_mean (scores ++ [last_score]), Some m)] /\
    X (self (after_candidate s st)) = X_train /\
    lengths (self (after_candidate s st)) = train_len.
Proof.
  intros Hlen Hfolds Hpre Hlast.
  assert (Hne : length (sequences (self st)) <> 1%nat) by lia.
  unfold after_candidate. rewrite cv_candidate_eq. cbv zeta.
  apply Nat.eqb_neq in Hne. rewrite Hne, cv_folds_eq. cbn [self].
  rewrite Hfolds. cbn [snd].
  set (st0 := {| self := self st; hmm_model := hmm_model st;
                 cv_results := []; models := models st |}).
  destruct (for_each_folds_prefix s pre [last] scores st0 Hpre)
    as (st1 & -> & Hc1 & _ & Hms1 & Hr1 & _).
  cbn [cv_results models self st0 app] in Hr1, Hms1, Hc1.
  rewrite (same_config_fold_score _ _ s last Hc1) in Hlast.
  destruct (cv_fold_Ok_exact s last st1 last_score Hlast)
    as (X_train & train_len & m & Hcomb & Hfit & Hfold).
  rewrite for_each_cons, Hfold. cbn [for_each ret snd].
  cbn [cv_results hmm_model self models].
  assert (Hseq : sequences (self st1) = sequences (self st))
    by (symmetry; apply Hc1).
  assert (Hrs : random_state (self st1) = random_state (self st))
    by (symmetry; apply Hc1).
  rewrite Hseq in Hcomb. rewrite Hrs in Hfit.
  exists X_train, train_len, m.
  split; [exact Hcomb|]. split; [exact Hfit|].
  rewrite Hr1, Hms1.
  replace (0 <? length (scores ++ [last_score]))%nat with true.
  2:{ symmetry. apply Nat.ltb_lt. rewrite length_app. simpl. lia. }
  cbn [snd self cv_results models X lengths set_X set_lengths].
  repeat split.
Qed.

Lemma SelectorCV_all_folds_witness :
  let st := cv_init (E := Toy.env) Toy.sel_two in
  cv_results (after_candidate (E := Toy.env) 2 st) = [Fin (-6); Fin (-6)] /\
  models (after_candidate (E := Toy.env) 2 st)
    = [(np_mean [Fin (-6); Fin (-6)], Some 2)] /\
  X (self (after_candidate (E := Toy.env) 2 st)) = Toy.seq_a.
Proof.
  destruct (SelectorCV_all_folds (E := Toy.env) (cv_init Toy.sel_two) 2
              [([1], [0])] ([0], [1]) [Fin (-6)] (Fin (-6)))%nat
    as (X_train & train_len & m & Hcomb & Hfit & _ & Hr & Hms & HX & _).
  - vm_compute. lia.
  - reflexivity.
  - constructor; [reflexivity|constructor].
  - reflexivity.
  - split; [exact Hr|].
    assert (HX' : X_train = Toy.seq_a) by (now inversion Hcomb).
    assert (Hm : m = 2).
    { subst X_train. inversion Hcomb; subst train_len.
      now inversion Hfit. }
    subst m. split; [exact Hms|]. now rewrite HX.
Defined.

(** X8: when the splitter raises for a class with several sequences (or
    none), as it does for every class in a release of the library that
    rejects the arguments it is built with, [SelectorCV] records no
    candidate, leaves the selector as it was, and [select] raises
    [ValueError]. *)
Theorem SelectorCV_splitter_failure {E : External} (this : ModelSelector) :
  length (sequences this) <> 1%nat ->
  is_Raise (folds_of this) = true ->
  SelectorCV_models this = [] /\
  SelectorCV_select this = (Raise ValueError, this).
Proof.
  intros Hlen Hsplit.
  destruct (for_each_candidates_no_split (candidate_range this)
              (cv_init this) Hlen Hsplit) as (st' & Heq & Hs & Hms).
  assert (Hmodels : SelectorCV_models this = []).
  { unfold SelectorCV_models. now rewrite Heq. }
  split; [exact Hmodels|].
  rewrite SelectorCV_select_eq, Hmodels, Heq. cbn [snd py_max].
  now rewrite Hs.
Qed.

Lemma SelectorCV_splitter_failure_witness :
  SelectorCV_models (E := Toy.env_no_split) Toy.sel_two = [] /\
  SelectorCV_select (E := Toy.env_no_split) Toy.sel_two
    = (Raise ValueError, Toy.sel_two).
Proof.
  apply (SelectorCV_splitter_failure (E := Toy.env_no_split) Toy.sel_two).
  - vm_compute. discriminate.
  - reflexivity.
Defined.

(** X9: [SelectorCV.select] raises exactly when no candidate was recorded,
    and the only error it raises is the [ValueError] of [max] on the empty
    list: the loops raise nothing, and the local [hmm_model] is bound
    whenever it is read. *)
Theorem SelectorCV_select_errors {E : External} (this : ModelSelector) :
  (is_Raise (fst (SelectorCV_select this)) = true <->
   SelectorCV_models this = []) /\
  (forall e, fst (SelectorCV_select this) = Raise e -> e = ValueError).
Proof.
  rewrite SelectorCV_select_eq. cbn [fst].
  destruct (SelectorCV_models this) as [|c r] eqn:Hms.
  - cbn. split; [tauto|]. intros e He. congruence.
  - cbn [py_max]. destruct (best_from gtb fst c r) as [sc m].
    split; [split; discriminate|]. intros e He. discriminate.
Qed.

Lemma SelectorCV_select_errors_witness :
  is_Raise (fst (SelectorCV_select (E := Toy.env) Toy.sel_short)) = true.
Proof.
  apply (proj1 (SelectorCV_select_errors (E := Toy.env) Toy.sel_short)).
  reflexivity.
Defined.



(** ** [recognize]: one item at a time *)

Section RecognizeItems.

Context {E : External}.

(** The accumulators only collect: the loop started on any lists gives
    what it gives from the empty ones, appended to them. *)
Lemma recognize_loop_acc (models : dict (option Model))
    (test_set : SinglesData) (idxs : list nat)
    (probabilities : list (dict float)) (guesses : list string) :
  recognize_loop models test_set idxs probabilities guesses =
  match recognize_loop models test_set idxs [] [] with
  | Ok (P, G) => Ok (probabilities ++ P, guesses ++ G)
  | Raise e => Raise e
  end.
Proof.
  revert probabilities guesses.
  induction idxs as [|i r IH]; intros probabilities guesses.
  - cbn. now rewrite !app_nil_r.
  - cbn [recognize_loop].
    destruct (get_item_Xlengths test_set i) as [[features length]|e];
      [|reflexivity].
    cbv zeta.
    destruct (best_guess (score_words models features length []))
      as [guess|e]; [|reflexivity].
    rewrite (IH (probabilities ++ _) (guesses ++ _)).
    rewrite (IH ([] ++ _) ([] ++ _)).
    destruct (recognize_loop models test_set r [] []) as [[P G]|e];
      [|reflexivity].
    cbn [app]. now rewrite <- !app_assoc.
Qed.

(** The indices of the items after the first are those of the rest of the
    test set, shifted by one. *)
Lemma recognize_loop_shift (models : dict (option Model))
    (xl : Xlengths) (test_set : SinglesData) (idxs : list nat)
    (probabilities : list (dict float)) (guesses : list string) :
  recognize_loop models (xl :: test_set) (map S idxs) probabilities guesses
  = recognize_loop models test_set idxs probabilities guesses.
Proof.
  revert probabilities guesses.
  induction idxs as [|i r IH]; intros probabilities guesses;
    [reflexivity|].
  cbn [map recognize_loop]. unfold get_item_Xlengths. cbn [nth_error].
  destruct (nth_error test_set i) as [[features length]|]; [|reflexivity].
  cbv zeta.
  destruct (best_guess (score_words models features length []));
    [apply IH|reflexivity].
Qed.

(** [recognize] on a test set with a first item. *)
Lemma recognize_cons (models : dict (option Model)) (features : matrix)
    (length : list Z) (test_set : SinglesData) :
  recognize models ((features, length) :: test_set) =
  let LL := score_words models features length [] in
  match best_guess LL with
  | Raise e => Raise e
  | Ok guess =>
      match recognize models test_set with
      | Ok (P, G) => Ok (LL :: P, guess :: G)
      | Raise e => Raise e
      end
  end.
Proof.
  unfold recognize, get_all_Xlengths. cbn [List.length seq].
  cbn [recognize_loop get_item_Xlengths nth_error]. cbv zeta.
  destruct (best_guess (score_words models features length []))
    as [guess|e]; [|reflexivity].
  rewrite <- seq_shift, recognize_loop_shift, recognize_loop_acc.
  reflexivity.
Qed.

Lemma recognize_nil (models : dict (option Model)) :
  recognize models [] = Ok ([], []).
Proof. reflexivity. Qed.

Lemma best_guess_empty : best_guess [] = Raise ValueError.
Proof. reflexivity. Qed.

Lemma recognize_Ok (models : dict (option Model)) (test_set : SinglesData) :
  models <> [] ->
  exists P G, recognize models test_set = Ok (P, G).
Proof.
  intros Hne. induction test_set as [|[features length] r IH].
  - exists [], []. reflexivity.
  - rewrite recognize_cons. cbv zeta.
    destruct (best_guess_spec (score_words models features length []))
      as (guess & v & -> & _).
    { apply score_words_nonempty. now left. }
    destruct IH as (P & G & ->). eauto.
Qed.

(** The mapping of an item and the position of its guess in the table. *)
Lemma best_guess_first (models : dict (option Model)) (features : matrix)
    (length : list Z) :
  models <> [] ->
  NoDup (keys models) ->
  exists k guess m,
    best_guess (score_words models features length []) = Ok guess /\
    nth_error models k = Some (guess, m) /\
    (forall w m', In (w, m') models ->
       gtb (word_score m' features length) (word_score m features length)
         = false) /\
    (forall j w m', (j < k)%nat -> nth_error models j = Some (w, m') ->
       word_score m' features length <> NaN ->
       gtb (word_score m features length) (word_score m' features length)
         = true).
Proof.
  intros Hne Hnd.
  rewrite score_words_eq by (auto; intros w _ []). cbn [app].
  set (entry := fun wm : string * option Model =>
                  (fst wm, word_score (snd wm) features length)).
  destruct (py_max_first snd (map entry models))
    as (k & [guess v] & Hmax & Hnth & Hall & Hbefore).
  { now apply map_nonempty. }
  rewrite nth_error_map in Hnth.
  destruct (nth_error models k) as [[w m]|] eqn:Hk; [|discriminate].
  cbn in Hnth. inversion Hnth; subst guess v.
  exists k, w, m. split; [unfold best_guess; now rewrite Hmax|].
  split; [exact Hk|]. split.
  - intros w' m' Hin.
    exact (Hall (entry (w', m')) (in_map entry _ _ Hin)).
  - intros j w' m' Hj Hnthj Hnan.
    apply (Hbefore j (entry (w', m')) Hj); [|exact Hnan].
    rewrite nth_error_map, Hnthj. reflexivity.
Qed.

Lemma dict_get_map_entry {V W : Type} (f : V -> W) (d : dict V)
    (k : string) (v : V) :
  NoDup (keys d) -> In (k, v) d ->
  dict_get (map (fun kv => (fst kv, f (snd kv))) d) k = Some (f v).
Proof.
  induction d as [|[k' v'] r IH]; intros Hnd Hin; [destruct Hin|].
  cbn [map fst snd dict_get]. inversion Hnd as [|? ? Hk' Hr]; subst.
  destruct Hin as [Heq|Hin].
  - inversion Heq; subst. now rewrite String.eqb_refl.
  - destruct (String.eqb_spec k' k) as [->|Hne].
    + exfalso. apply Hk'. change k with (fst (k, v)).
      apply in_map, Hin.
    + now apply IH.
Qed.

(** What [recognize] returns at the position of an item. *)
Lemma recognize_item (models : dict (option Model))
    (test_set : SinglesData) (probabilities : list (dict float))
    (guesses : list string) (i : nat) (features : matrix)
    (lengths : list Z) :
  recognize models test_set = Ok (probabilities, guesses) ->
  nth_error test_set i = Some (features, lengths) ->
  exists guess,
    nth_error probabilities i
      = Some (score_words models features lengths []) /\
    nth_error guesses i = Some guess /\
    best_guess (score_words models features lengths []) = Ok guess.
Proof.
  revert probabilities guesses i.
  induction test_set as [|[f0 l0] r IH];
    intros probabilities guesses i Hrec Hi.
  - destruct i; discriminate.
  - rewrite recognize_cons in Hrec. cbv zeta in Hrec.
    destruct (best_guess (score_words models f0 l0 [])) as [g0|e] eqn:Hg0;
      [|discriminate].
    destruct (recognize models r) as [[P G]|e]; [|discriminate].
    inversion Hrec; subst. destruct i as [|i'].
    + cbn in Hi. inversion Hi; subst. exists g0. auto.
    + cbn in Hi. exact (IH P G i' eq_refl Hi).
Qed.

End RecognizeItems.

(** X11: [recognize] raises exactly when the table has no class and the
    test set has an item, and what it raises then is the [ValueError] of
    [max] on the empty mapping; a scoring that raises never makes it
    raise. *)
Theorem recognize_errors {E : External} (models : dict (option Model))
    (test_set : SinglesData) :
  (is_Raise (recognize models test_set) = true <->
   models = [] /\ test_set <> []) /\
  (models = [] -> test_set <> [] ->
   recognize models test_set = Raise ValueError).
Proof.
  assert (Hempty : models = [] -> test_set <> [] ->
            recognize models test_set = Raise ValueError).
  { intros -> Hts. destruct test_set as [|[features length] r];
      [congruence|]. now rewrite recognize_cons. }
  split; [|exact Hempty]. split.
  - intros Hraise. destruct models as [|c r].
    + split; [reflexivity|]. intros ->. discriminate.
    + destruct (recognize_Ok (c :: r) test_set) as (P & G & Heq);
        [discriminate|].
      rewrite Heq in Hraise. discriminate.
  - intros [Hm Hts]. now rewrite (Hempty Hm Hts).
Qed.

Lemma recognize_errors_witness :
  recognize (E := Toy.env) [] Toy.test_set = Raise ValueError.
Proof.
  apply (proj2 (recognize_errors (E := Toy.env) [] Toy.test_set)).
  - reflexivity.
  - discriminate.
Defined.

(** X12: the test items are recognized one by one: recognizing two test
    sets one after the other gives the mappings and the guesses of the
    first followed by those of the second. *)
Theorem recognize_app {E : External} (models : dict (option Model))
    (test_set1 test_set2 : SinglesData)
    (P1 P2 : list (dict float)) (G1 G2 : list string) :
  recognize models test_set1 = Ok (P1, G1) ->
  recognize models test_set2 = Ok (P2, G2) ->
  recognize models (test_set1 ++ test_set2) = Ok (P1 ++ P2, G1 ++ G2).
Proof.
  revert P1 G1.
  induction test_set1 as [|[features length] r IH]; intros P1 G1 H1 H2.
  - rewrite recognize_nil in H1. inversion H1; subst. exact H2.
  - cbn [app]. rewrite recognize_cons in *. cbv zeta in *.
    destruct (best_guess (score_words models features length []))
      as [guess|e]; [|discriminate].
    destruct (recognize models r) as [[P G]|e]; [|discriminate].
    inversion H1; subst. now rewrite (IH P G eq_refl H2).
Qed.

Lemma recognize_app_witness :
  recognize (E := Toy.env) Toy.table (Toy.test_set ++ Toy.test_set)
  = Ok ([[("BOOK", Fin (-6)); ("CHAIR", Fin (-9)); ("NONE", neg_inf)];
         [("BOOK", neg_inf); ("CHAIR", neg_inf); ("NONE", neg_inf)];
         [("BOOK", Fin (-6)); ("CHAIR", Fin (-9)); ("NONE", neg_inf)];
         [("BOOK", neg_inf); ("CHAIR", neg_inf); ("NONE", neg_inf)]],
        ["BOOK"; "BOOK"; "BOOK"; "BOOK"])%string.
Proof.
  exact (recognize_app (E := Toy.env) Toy.table Toy.test_set Toy.test_set
           _ _ _ _ eq_refl eq_refl).
Defined.

(** X13: ties go to the class that comes first in the table.  For a table
    of distinct classes and an item of the test set, the guess is the
    class at a position of the table whose score no class exceeds, and
    every class before it with a score other than not-a-number scores
    strictly less. *)
Theorem recognize_guess_first {E : External}
    (models : dict (option Model)) (test_set : SinglesData)
    (probabilities : list (dict float)) (guesses : list string)
    (i : nat) (features : matrix) (lengths : list Z) :
  NoDup (keys models) ->
  recognize models test_set = Ok (probabilities, guesses) ->
  nth_error test_set i = Some (features, lengths) ->
  exists k guess m,
    nth_error guesses i = Some guess /\
    nth_error models k = Some (guess, m) /\
    (forall w m', In (w, m') models ->
       gtb (word_score m' features lengths) (word_score m features lengths)
         = false) /\
    (forall j w m', (j < k)%nat -> nth_error models j = Some (w, m') ->
       word_score m' features lengths <> NaN ->
       gtb (word_score m features lengths) (word_score m' features lengths)
         = true).
Proof.
  intros Hnd Hrec Hi.
  destruct (recognize_item models test_set _ _ i features lengths Hrec Hi)
    as (g & _ & Hg & Hbest).
  assert (Hne : models <> []).
  { intros ->. cbn in Hbest. discriminate. }
  destruct (best_guess_first models features lengths Hne Hnd)
    as (k & guess & m & Hg' & Hk & Hall & Hbefore).
  rewrite Hbest in Hg'. inversion Hg'; subst g.
  exists k, guess, m. auto.
Qed.

Lemma recognize_guess_first_witness :
  exists k guess m,
    nth_error ["BOOK"; "BOOK"]%string 1%nat = Some guess /\
    nth_error Toy.table k = Some (guess, m).
Proof.
  destruct (recognize_guess_first (E := Toy.env) Toy.table Toy.test_set
              _ _ 1%nat _ _
              ltac:(repeat constructor; simpl; intuition discriminate)
              eq_refl eq_refl)
    as (k & guess & m & Hg & Hk & _).
  exists k, guess, m. split; [exact Hg|exact Hk].
Defined.

(** X14: a class whose entry in the table is [None], which is what a
    selector returns after a failed fit, gets minus infinity in the
    mapping of every test item, and it is the guess for an item only when
    no class of the table scores above minus infinity on that item. *)
Theorem recognize_None_model {E : External}
    (models : dict (option Model)) (test_set : SinglesData)
    (probabilities : list (dict float)) (guesses : list string)
    (word : string) (i : nat) (features : matrix) (lengths : list Z) :
  NoDup (keys models) ->
  In (word, None) models ->
  recognize models test_set = Ok (probabilities, guesses) ->
  nth_error test_set i = Some (features, lengths) ->
  exists LL,
    nth_error probabilities i = Some LL /\
    dict_get LL word = Some neg_inf /\
    (nth_error guesses i = Some word ->
     forall w m, In (w, m) models ->
       gtb (word_score m features lengths) neg_inf = false).
Proof.
  intros Hnd Hin Hrec Hi.
  assert (Hne : models <> []) by (intros ->; destruct Hin).
  destruct (recognize_item models test_set _ _ i features lengths Hrec Hi)
    as (g & HLL & Hg & Hbest).
  exists (score_words models features lengths []).
  split; [exact HLL|]. split.
  - rewrite score_words_eq by (auto; intros w _ []). cbn [app].
    exact (dict_get_map_entry (fun m => word_score m features lengths)
             models word None Hnd Hin).
  - intros Hw w m Hwm. rewrite Hg in Hw. inversion Hw; subst g.
    destruct (best_guess_first models features lengths Hne Hnd)
      as (k & guess & m0 & Hg' & Hk & Hall & _).
    rewrite Hbest in Hg'. inversion Hg'; subst guess.
    assert (Hm0 : m0 = None).
    { apply nth_error_In in Hk.
      assert (H1 := dict_get_map_entry (fun x => x) models word m0 Hnd Hk).
      assert (H2 := dict_get_map_entry (fun x => x) models word None Hnd
                      Hin).
      cbv beta in H1, H2. congruence. }
    subst m0. exact (Hall w m Hwm).
Qed.

Lemma recognize_None_model_witness :
  exists LL,
    nth_error
      [[("BOOK", Fin (-6)); ("CHAIR", Fin (-9)); ("NONE", neg_inf)];
       [("BOOK", neg_inf); ("CHAIR", neg_inf); ("NONE", neg_inf)]]%string
      0%nat = Some LL /\
    dict_get LL "NONE"%string = Some neg_inf.
Proof.
  destruct (recognize_None_model (E := Toy.env) Toy.table Toy.test_set
              _ _ "NONE"%string 0%nat _ _
              ltac:(repeat constructor; simpl; intuition discriminate)
              ltac:(simpl; auto) eq_refl eq_refl)
    as (LL & HLL & Hget & _).
  exists LL. split; [exact HLL|exact Hget].
Defined.

(** X15: the entry of a class in the mapping of an item is the score of
    the model of that class on that item, or minus infinity when that one
    scoring raises: it does not depend on the other classes of the table
    nor on the other items, so that a failure for one class and item
    changes no other entry. *)
Theorem recognize_entry {E : External} (models : dict (option Model))
    (test_set : SinglesData) (probabilities : list (dict float))
    (guesses : list string) (word : string) (model : option Model)
    (i : nat) (features : matrix) (lengths : list Z) :
  NoDup (keys models) ->
  In (word, model) models ->
  recognize models test_set = Ok (probabilities, guesses) ->
  nth_error test_set i = Some (features, lengths) ->
  exists LL,
    nth_error probabilities i = Some LL /\
    dict_get LL word =
      Some match score model features lengths with
           | Ok LogL => LogL
           | Raise _ => neg_inf
           end.
Proof.
  intros Hnd Hin Hrec Hi.
  destruct (recognize_item models test_set _ _ i features lengths Hrec Hi)
    as (g & HLL & _).
  exists (score_words models features lengths []).
  split; [exact HLL|].
  rewrite score_words_eq by (auto; intros w _ []). cbn [app].
  exact (dict_get_map_entry (fun m => word_score m features lengths)
           models word model Hnd Hin).
Qed.

Lemma recognize_entry_witness :
  exists LL,
    nth_error
      [[("BOOK", Fin (-6)); ("CHAIR", Fin (-9)); ("NONE", neg_inf)];
       [("BOOK", neg_inf); ("CHAIR", neg_inf); ("NONE", neg_inf)]]%string
      1%nat = Some LL /\
    dict_get LL "CHAIR"%string = Some neg_inf.
Proof.
  destruct (recognize_entry (E := Toy.env) Toy.table Toy.test_set
              _ _ "CHAIR"%string (Some 3) 1%nat _ _
              ltac:(repeat constructor; simpl; intuition discriminate)
              ltac:(simpl; auto) eq_refl eq_refl)
    as (LL & HLL & Hget).
  exists LL. split; [exact HLL|exact Hget].
Defined.

(** ** [SelectorBIC] after a failure, on an example *)

Lemma SelectorBIC_select_after_failure_witness :
  exists BIC best_model,
    SelectorBIC_select (E := Toy.env) Toy.sel_single = Ok best_model /\
    In (BIC, best_model) (SelectorBIC_models (E := Toy.env) Toy.sel_single)
    /\ (BIC = neg_inf \/ BIC = NaN).
Proof.
  apply (SelectorBIC_select_after_failure (E := Toy.env) Toy.sel_single 4).
  - vm_compute. split; discriminate.
  - reflexivity.
Defined.

(** ** Which state counts are recorded, and the smallest BIC value *)

Section Recorded.

Context {E : External}.

Lemma same_config_has_scoring_fold (a b : ModelSelector) (s : Z) :
  same_config a b -> has_scoring_fold a s = has_scoring_fold b s.
Proof.
  intros Hc. unfold has_scoring_fold.
  rewrite (same_config_folds_of a b Hc).
  destruct (folds_of b) as [[|f r]|e]; try reflexivity.
  now rewrite (same_config_fold_score a b s f Hc).
Qed.

Lemma same_config_cv_recorded (a b : ModelSelector) (s : Z) :
  same_config a b -> cv_recorded a s = cv_recorded b s.
Proof.
  intros Hc. unfold cv_recorded.
  rewrite (same_config_has_scoring_fold a b s Hc).
  destruct Hc as (_ & _ & -> & _). reflexivity.
Qed.

(** A state count whose first fold scores is recorded, with the mean of
    the scores it got. *)
Lemma cv_candidate_first_fold (s : Z) (st : CVState)
    (f : list nat * list nat) (r : list (list nat * list nat)) (sc : float) :
  length (sequences (self st)) <> 1%nat ->
  folds_of (self st) = Ok (f :: r) ->
  fold_score (self st) s f = Ok sc ->
  exists st' m,
    cv_candidate s st = (Ok tt, st') /\
    same_config (self st) (self st') /\
    models st' = models st ++ [(np_mean (cv_results st'), m)].
Proof.
  intros Hlen Hfolds Hsc. rewrite cv_candidate_eq. cbv zeta.
  apply Nat.eqb_neq in Hlen. rewrite Hlen, cv_folds_eq. cbn [self].
  rewrite Hfolds. cbn [snd].
  set (st0 := {| self := self st; hmm_model := hmm_model st;
                 cv_results := []; models := models st |}).
  rewrite for_each_cons.
  destruct (cv_fold_Ok s f st0 sc Hsc)
    as (st1 & -> & Hc1 & _ & Hm1 & Hr1 & Hms1).
  destruct (for_each_folds_inv s r st1)
    as (res & st2 & extra & -> & Hc2 & _ & Hms2 & Hr2 & _ & _ & Hm2).
  cbn [snd]. cbn [cv_results models self st0 app] in *.
  rewrite Hr2, Hr1. cbn [app length Nat.ltb Nat.leb].
  destruct (hmm_model st2) as [m|] eqn:Hm; [|now destruct (Hm2 Hm1)].
  eexists _, m. split; [reflexivity|]. cbn [self models].
  split; [eapply same_config_trans; eauto|].
  cbn [cv_results]. congruence.
Qed.

(** The evaluation of a state count adds one candidate when the state
    count is one of those recorded, and none otherwise. *)
Lemma cv_candidate_count (s : Z) (st : CVState) :
  exists st',
    cv_candidate s st = (Ok tt, st') /\
    same_config (self st) (self st') /\
    length (models st') =
      (length (models st) + if cv_recorded (self st) s then 1 else 0)%nat.
Proof.
  unfold cv_recorded, has_scoring_fold.
  destruct (Nat.eq_dec (length (sequences (self st))) 1) as [H1|H1].
  - rewrite (cv_candidate_single s st H1), H1. cbn [Nat.eqb orb].
    eexists. split; [reflexivity|]. cbn [self models].
    split; [apply same_config_refl|]. now rewrite length_app.
  - assert (Hneq := H1). apply Nat.eqb_neq in Hneq. rewrite Hneq.
    cbn [orb].
    destruct (folds_of (self st)) as [[|f r]|e] eqn:Hfolds.
    + destruct (cv_candidate_folds s st [] [] [] H1 Hfolds (Forall2_nil _) I)
        as (st' & -> & _ & Hc & Hms).
      exists st'. split; [reflexivity|]. split; [exact Hc|].
      rewrite Hms. lia.
    + destruct (fold_score (self st) s f) as [sc|e] eqn:Hsc; cbn [is_Raise negb].
      * destruct (cv_candidate_first_fold s st f r sc H1 Hfolds Hsc)
          as (st' & m & -> & Hc & Hms).
        exists st'. split; [reflexivity|]. split; [exact Hc|].
        rewrite Hms, length_app. reflexivity.
      * destruct (cv_candidate_folds s st [] (f :: r) [] H1 Hfolds
                    (Forall2_nil _)) as (st' & -> & _ & Hc & Hms).
        { now rewrite Hsc. }
        exists st'. split; [reflexivity|]. split; [exact Hc|].
        rewrite Hms. lia.
    + rewrite cv_candidate_eq. cbv zeta. rewrite Hneq, cv_folds_eq.
      cbn [self]. rewrite Hfolds. cbn. eexists. split; [reflexivity|].
      cbn [self models]. split; [apply same_config_refl|]. lia.
Qed.

Lemma for_each_candidates_count (rng : list Z) (st : CVState) :
  exists st',
    for_each rng cv_candidate st = (Ok tt, st') /\
    same_config (self st) (self st') /\
    length (models st') =
      (length (models st)
       + length (filter (cv_recorded (self st)) rng))%nat.
Proof.
  revert st. induction rng as [|s r IH]; intros st.
  - exists st. split; [reflexivity|]. split; [apply same_config_refl|].
    simpl. lia.
  - rewrite for_each_cons.
    destruct (cv_candidate_count s st) as (st1 & -> & Hc1 & Hl1).
    destruct (IH st1) as (st2 & -> & Hc2 & Hl2).
    exists st2. split; [reflexivity|].
    split; [eapply same_config_trans; eauto|].
    rewrite Hl2, Hl1. cbn [filter].
    rewrite (filter_ext (cv_recorded (self st1)) (cv_recorded (self st))).
    + destruct (cv_recorded (self st) s); simpl; lia.
    + intros s'. symmetry. now apply same_config_cv_recorded.
Qed.

Lemma SelectorCV_models_count (this : ModelSelector) :
  length (SelectorCV_models this)
  = length (filter (cv_recorded this) (candidate_range this)).
Proof.
  unfold SelectorCV_models.
  destruct (for_each_candidates_count (candidate_range this) (cv_init this))
    as (st' & -> & _ & Hlen).
  cbn [snd]. exact Hlen.
Qed.

Lemma candidate_range_length_max (self : ModelSelector) :
  Z.of_nat (length (candidate_range self))
  = Z.max 0 (max_n_components self - min_n_components self + 1).
Proof. unfold candidate_range. rewrite range_length. lia. Qed.


(** Two comparable floats, the second not below the first: the first is
    below the second or equal to it. *)
Lemma ltb_or_eqb (a b : float) :
  a <> NaN -> b <> NaN -> ltb b a = false ->
  ltb a b = true \/ eqb a b = true.
Proof.
  destruct a as [| |x|], b as [| |y|]; simpl; intros Ha Hb H;
    try congruence; auto.
  assert (Hle : (x <= y)%Q).
  { apply Qnot_lt_le. intros Hlt. apply Qltb_lt in Hlt. congruence. }
  destruct (Qle_lt_or_eq _ _ Hle) as [Hlt|Heq].
  - left. now apply Qltb_lt.
  - right. now apply Qeq_bool_iff.
Qed.

End Recorded.

(** C3, as the code has it: for every state count [s] of the range whose
    fit on the data of the class and whose score on that data succeed,
    [SelectorBIC] records [-2*LL + p*ln(N)] with [p = s^2 + 2*s*N - 1] and
    [N] the sum of the lengths, paired with the fitted model; and when
    this is so for every state count of the range and no recorded value is
    not-a-number, [select] returns the model paired with the smallest
    recorded BIC value, the first one among equal values. *)
Theorem SelectorBIC_formula_and_smallest {E : External}
    (self : ModelSelector) :
  let N := sum (lengths self) in
  let BIC s := fst (SelectorBIC_candidate self N s) in
  (forall s m LL,
     min_n_components self <= s <= max_n_components self ->
     GaussianHMM_fit s (random_state self) (X self) (lengths self) = Ok m ->
     hmm_score m (X self) (lengths self) = Ok LL ->
     nth_error (SelectorBIC_models self)
       (Z.to_nat (s - min_n_components self))
       = Some (add (mul (of_Z (-2)) LL)
                 (mul (of_Z (s ^ 2 + 2 * s * N - 1)) (np_log N)),
               Some m)) /\
  (min_n_components self <= max_n_components self ->
   (forall s, min_n_components self <= s <= max_n_components self ->
      exists m LL,
        GaussianHMM_fit s (random_state self) (X self) (lengths self) = Ok m
        /\ hmm_score m (X self) (lengths self) = Ok LL /\ BIC s <> NaN) ->
   exists s0 m0,
     min_n_components self <= s0 <= max_n_components self /\
     GaussianHMM_fit s0 (random_state self) (X self) (lengths self) = Ok m0
     /\
     SelectorBIC_select self = Ok (Some m0) /\
     nth_error (SelectorBIC_models self)
       (Z.to_nat (s0 - min_n_components self)) = Some (BIC s0, Some m0) /\
     (forall s, min_n_components self <= s <= max_n_components self ->
        ltb (BIC s0) (BIC s) = true \/ eqb (BIC s0) (BIC s) = true) /\
     (forall s, min_n_components self <= s < s0 ->
        ltb (BIC s0) (BIC s) = true)).
Proof.
  intros N BIC. split.
  - intros s m LL Hs Hfit Hscore. unfold SelectorBIC_models.
    rewrite nth_error_candidates by exact Hs.
    unfold SelectorBIC_candidate, base_model. rewrite Hfit. cbn [score].
    rewrite Hscore. reflexivity.
  - intros Hr Hall.
    destruct (SelectorBIC_select_by_state self Hr)
      as (s0 & Hs0 & Hsel & Hmin & Hbefore).
    destruct (Hall s0 Hs0) as (m0 & LL0 & Hfit0 & Hscore0 & Hnan0).
    assert (Hbm : base_model self s0 = Some m0).
    { unfold base_model. now rewrite Hfit0. }
    exists s0, m0. split; [exact Hs0|]. split; [exact Hfit0|].
    split; [now rewrite Hsel, Hbm|]. split; [|split].
    + unfold SelectorBIC_models.
      rewrite nth_error_candidates by exact Hs0. unfold BIC, N.
      rewrite <- Hbm,
        <- (SelectorBIC_candidate_snd self (sum (lengths self)) s0).
      now destruct (SelectorBIC_candidate self (sum (lengths self)) s0).
    + intros s Hs. destruct (Hall s Hs) as (_ & _ & _ & _ & Hnan).
      apply ltb_or_eqb; [exact Hnan0|exact Hnan|]. exact (Hmin s Hs).
    + intros s Hs. destruct (Hall s ltac:(lia)) as (_ & _ & _ & _ & Hnan).
      exact (Hbefore s Hs Hnan).
Qed.

Lemma SelectorBIC_formula_and_smallest_witness :
  nth_error (SelectorBIC_models (E := Toy.env) Toy.sel_two) 1
    = Some (Fin 124, Some 3) /\
  exists s0 m0,
    2 <= s0 <= 4 /\
    SelectorBIC_select (E := Toy.env) Toy.sel_two = Ok (Some m0) /\
    nth_error (SelectorBIC_models (E := Toy.env) Toy.sel_two)
      (Z.to_nat (s0 - 2))
      = Some (fst (SelectorBIC_candidate (E := Toy.env) Toy.sel_two 6 s0),
              Some m0).
Proof.
  destruct (SelectorBIC_formula_and_smallest (E := Toy.env) Toy.sel_two)
    as (Hformula & Hsmallest).
  split.
  - exact (Hformula 3 3 (Fin (-18)) ltac:(vm_compute; split; discriminate)
             eq_refl eq_refl).
  - destruct Hsmallest as (s0 & m0 & Hs0 & _ & Hsel & Hnth & _).
    + vm_compute. discriminate.
    + intros s Hs.
      assert (Hcases : s = 2 \/ s = 3 \/ s = 4)
        by (change (2 <= s <= 4) in Hs; lia).
      destruct Hcases as [->|[->| ->]].
      * exists 2, (Fin (-12)). repeat split. discriminate.
      * exists 3, (Fin (-18)). repeat split. discriminate.
      * exists 4, (Fin (-24)). repeat split. discriminate.
    + exists s0, m0. auto.
Defined.

(** C3 as stated fails when a recorded value is not-a-number.  With a
    model of two states that scores not-a-number, every fit and every
    scoring of the class of [Toy.sel_two] succeeds, the smallest BIC value
    recorded is 124, paired with the model of three states, and [select]
    returns the model of two states: [min] keeps a first item that nothing
    compares below. *)
Lemma SelectorBIC_smallest_counterexample :
  SelectorBIC_models (E := Toy.env_nan) Toy.sel_two
    = [(NaN, Some 2); (Fin 124, Some 3); (Fin 174, Some 4)] /\
  ltb (Fin 124) (Fin 174) = true /\
  SelectorBIC_select (E := Toy.env_nan) Toy.sel_two = Ok (Some 2).
Proof. repeat split; reflexivity. Qed.



(** C8, as the code has it: [SelectorBIC] and [SelectorDIC] collect one
    candidate per state count of the range, failed ones included, with the
    sentinel score: [max_n_components - min_n_components + 1] of them when
    that is not negative, none when the range is empty.
    [SelectorConstant] fits [n_constant] once on the data of the class,
    whatever the range.  [SelectorCV] adds a candidate for a state count
    exactly when the state count is recorded: always for a class with one
    sequence, otherwise when its first fold scores, a state count whose
    first fold fails having no successful fold; so it collects as many
    candidates as the range has such state counts, at most as many as
    [SelectorBIC], and for some classes fewer. *)
Theorem candidate_counts :
  (forall (E : External) (this : ModelSelector),
     let count :=
       Z.max 0 (max_n_components this - min_n_components this + 1) in
     Z.of_nat (length (SelectorBIC_models this)) = count /\
     Z.of_nat (length (SelectorDIC_models this)) = count /\
     (forall s,
        min_n_components this <= s <= max_n_components this ->
        fit_fails this s \/ score_fails this s ->
        nth_error (SelectorBIC_models this)
          (Z.to_nat (s - min_n_components this))
          = Some (neg_inf, base_model this s) /\
        nth_error (SelectorDIC_models this)
          (Z.to_nat (s - min_n_components this))
          = Some (neg_inf, base_model this s)) /\
     (forall lo hi,
        SelectorConstant_select (with_range this lo hi)
        = match GaussianHMM_fit (n_constant this) (random_state this)
                  (X this) (lengths this) with
          | Ok m => Some m
          | Raise _ => None
          end) /\
     (forall s st, self st = this ->
        cv_candidate s st = (Ok tt, after_candidate s st) /\
        length (models (after_candidate s st))
        = (length (models st) + if cv_recorded this s then 1 else 0)%nat)
     /\
     length (SelectorCV_models this)
       = length (filter (cv_recorded this) (candidate_range this)) /\
     Z.of_nat (length (SelectorCV_models this)) <= count) /\
  (exists (E : External) (this : ModelSelector),
     min_n_components this <= max_n_components this /\
     Z.of_nat (length (SelectorCV_models this))
       < max_n_components this - min_n_components this + 1).
Proof.
  split.
  - intros E this count.
    assert (Hlen := candidate_range_length_max this).
    split; [|split; [|split; [|split; [|split; [|split]]]]].
    + unfold SelectorBIC_models. now rewrite length_map.
    + unfold SelectorDIC_models. now rewrite length_map.
    + intros s Hs Hfail.
      assert (Hscore : score_fails this s).
      { destruct Hfail as [H|H]; [now apply fit_fails_score_fails|exact H]. }
      unfold SelectorBIC_models, SelectorDIC_models.
      rewrite !nth_error_candidates by exact Hs.
      now rewrite SelectorBIC_candidate_failed, SelectorDIC_candidate_failed.
    + intros lo hi. reflexivity.
    + intros s st <-. unfold after_candidate.
      destruct (cv_candidate_count s st) as (st' & -> & _ & Hl).
      cbn [snd]. split; [reflexivity|exact Hl].
    + apply SelectorCV_models_count.
    + rewrite SelectorCV_models_count. unfold count. rewrite <- Hlen.
      apply Nat2Z.inj_le, filter_length_le.
  - exists Toy.env, Toy.sel_short. vm_compute. split; [discriminate|
      reflexivity].
Qed.

Lemma candidate_counts_witness :
  (nth_error (SelectorBIC_models (E := Toy.env) Toy.sel_single) 2
     = Some (neg_inf, None) /\
   nth_error (SelectorDIC_models (E := Toy.env) Toy.sel_single) 2
     = Some (neg_inf, None)) /\
  (let st := cv_init (E := Toy.env) Toy.sel_bad_middle in
   cv_candidate (E := Toy.env) 2 st
     = (Ok tt, after_candidate (E := Toy.env) 2 st) /\
   length (models (after_candidate (E := Toy.env) 2 st)) = 1%nat) /\
  (let st := cv_init (E := Toy.env) Toy.sel_short in
   cv_candidate (E := Toy.env) 2 st
     = (Ok tt, after_candidate (E := Toy.env) 2 st) /\
   length (models (after_candidate (E := Toy.env) 2 st)) = 0%nat).
Proof.
  split; [|split].
  - destruct (proj1 candidate_counts Toy.env Toy.sel_single)
      as (_ & _ & Hfailed & _).
    apply (Hfailed 4).
    + vm_compute. split; discriminate.
    + left. reflexivity.
  - destruct (proj1 candidate_counts Toy.env Toy.sel_bad_middle)
      as (_ & _ & _ & _ & Hcv & _).
    exact (Hcv 2 (cv_init Toy.sel_bad_middle) eq_refl).
  - destruct (proj1 candidate_counts Toy.env Toy.sel_short)
      as (_ & _ & _ & _ & Hcv & _).
    exact (Hcv 2 (cv_init Toy.sel_short) eq_refl).
Defined.

(** C8 as stated fails on an empty range: with [min_n_components = 5] and
    [max_n_components = 2] the loop runs for no state count and
    [SelectorBIC] and [SelectorDIC] collect no candidate, where
    [max_n_components - min_n_components + 1] is -2. *)
Lemma candidate_counts_counterexample :
  let this := Toy.sel_empty_range in
  max_n_components this - min_n_components this + 1 = -2 /\
  SelectorBIC_models (E := Toy.env) this = [] /\
  SelectorDIC_models (E := Toy.env) this = [] /\
  Z.of_nat (length (SelectorBIC_models (E := Toy.env) this))
    <> max_n_components this - min_n_components this + 1.
Proof.
  repeat split; try reflexivity. vm_compute. discriminate.
Qed.

(** C9: for a class with exactly one sequence, the evaluation of a state
    count by [SelectorCV] returns normally with exactly one fold result.
    The model is fitted on the stored data of the class, the whole
    collection, and scored on that same data; the fold result is that
    score, or minus infinity when the fit or the scoring raises.  The
    candidate is recorded with it and with the fitted model, the selector
    is left as it was, and over a range that is not empty [select] returns
    without raising. *)
Theorem SelectorCV_single_sequence {E : External} (this : ModelSelector)
    (s : Z) (st : CVState) :
  length (sequences this) = 1%nat ->
  self st = this ->
  let fitted :=
    GaussianHMM_fit s (random_state this) (X this) (lengths this) in
  let model :=
    match fitted with
    | Ok m => Some m
    | Raise _ => None
    end in
  let fold_result :=
    match fitted with
    | Ok m =>
        match hmm_score m (X this) (lengths this) with
        | Ok LL => LL
        | Raise _ => neg_inf
        end
    | Raise _ => neg_inf
    end in
  cv_candidate s st = (Ok tt, after_candidate s st) /\
  cv_results (after_candidate s st) = [fold_result] /\
  hmm_model (after_candidate s st) = Some model /\
  self (after_candidate s st) = this /\
  models (after_candidate s st)
    = models st ++ [(np_mean [fold_result], model)] /\
  (min_n_components this <= max_n_components this ->
   exists best_model, fst (SelectorCV_select this) = Ok best_model).
Proof.
  intros H1 Hst fitted model fold_result. subst this.
  unfold after_candidate.
  rewrite (cv_candidate_single s st H1).
  cbn [snd self cv_results models hmm_model].
  assert (Hmodel : base_model (self st) s = model) by reflexivity.
  assert (Hres : single_result (self st) s = fold_result).
  { unfold single_result, fold_result, fitted, base_model.
    destruct (GaussianHMM_fit _ _ _ _); reflexivity. }
  rewrite Hmodel, Hres.
  split; [reflexivity|]. split; [reflexivity|]. split; [reflexivity|].
  split; [reflexivity|]. split; [reflexivity|].
  intros Hr. rewrite SelectorCV_select_eq. cbn [fst].
  destruct (py_max_spec fst (SelectorCV_models (self st)))
    as ([mean best] & -> & _).
  - rewrite (SelectorCV_models_single (self st) H1).
    apply map_nonempty, candidate_range_nonempty, Hr.
  - now exists best.
Qed.

Lemma SelectorCV_single_sequence_witness :
  let this := Toy.sel_single in
  let st := cv_init (E := Toy.env) this in
  GaussianHMM_fit (External := Toy.env) 2 14 (X this) (lengths this) = Ok 2
  /\
  cv_candidate (E := Toy.env) 2 st
    = (Ok tt, after_candidate (E := Toy.env) 2 st) /\
  cv_results (after_candidate (E := Toy.env) 2 st) = [Fin (-6)] /\
  hmm_model (after_candidate (E := Toy.env) 2 st) = Some (Some 2) /\
  self (after_candidate (E := Toy.env) 2 st) = this /\
  models (after_candidate (E := Toy.env) 2 st)
    = [(np_mean [Fin (-6)], Some 2)] /\
  exists best_model,
    fst (SelectorCV_select (E := Toy.env) this) = Ok best_model.
Proof.
  destruct (SelectorCV_single_sequence (E := Toy.env) Toy.sel_single 2
              (cv_init Toy.sel_single) eq_refl eq_refl)
    as (H1 & H2 & H3 & H4 & H5 & H6).
  split; [reflexivity|]. split; [exact H1|]. split; [exact H2|].
  split; [exact H3|]. split; [exact H4|]. split; [exact H5|].
  apply H6. vm_compute. discriminate.
Defined.
